(** * CarlaServer: the session protocol engine of the CARLA plugin

    A shallow embedding of [Source/Carla/Game/CarlaServer.cpp] and the
    properties its description relies on.

    The file has three layers, as the C++ has:
    - the collaborators the translation unit only calls into (Unreal Engine,
      the [carla_server.h] transport, the rest of the Carla plugin) appear as
      type classes: every result below holds for any implementation of them;
    - the wire records and the simulation-side records are Rocq records whose
      fields keep the C++ names, one module per struct;
    - the functions of [CarlaServer.cpp] are Rocq functions over a small
      monad that threads the server object and the log and can stop on a
      failed [check]. *)

From Stdlib Require Import ZArith Ascii String QArith Lia.
From stdpp Require Import base option list.

Open Scope string_scope.
Open Scope list_scope.
Open Scope Z_scope.

(* ========================================================================= *)
(** * Machine integers *)
(* ========================================================================= *)

(** [uint32] and [int32] values are integers; a conversion to the 32-bit type
    is written out where the C++ converts. *)
Definition uint32_max : Z := 2 ^ 32 - 1.

Definition is_uint32 (z : Z) : Prop := 0 <= z <= uint32_max.

Definition to_uint32 (z : Z) : Z := z mod 2 ^ 32.

(** Conversion to a signed 32-bit integer: values from 2^31 on wrap to the
    negative range (two's complement). *)
Definition to_int32 (z : Z) : Z := (z + 2 ^ 31) mod 2 ^ 32 - 2 ^ 31.

(* ========================================================================= *)
(** * Collaborator interfaces *)
(* ========================================================================= *)

(** Single-precision floats. The translation unit copies them, multiplies
    once and writes four literals; nothing here depends on how they round. *)
Class Float32 := {
  float : Type;
  (** a value-initialised float, [0.0f] *)
  float_zero : float;
  (** [a * b] on floats *)
  float_mul : float -> float -> float;
  (** the float literal [m * 10^e], e.g. [0.036f] is [float_lit 36 (-3)] *)
  float_lit : Z -> Z -> float
}.

Module FVector.
Record t {F : Float32} := mk { X : float; Y : float; Z : float }.
Arguments mk {F}.
End FVector.

Module FRotator.
Record t {F : Float32} := mk { Pitch : float; Yaw : float; Roll : float }.
Arguments mk {F}.
End FRotator.

Module FQuat.
Record t {F : Float32} := mk { X : float; Y : float; Z : float; W : float }.
Arguments mk {F}.
End FQuat.

(** [FTransform]: [GetLocation] reads the translation, [GetRotation] the
    rotation quaternion. *)
Module FTransform.
Record t {F : Float32} := mk {
  Rotation : FQuat.t;
  Translation : FVector.t;
  Scale3D : FVector.t
}.
Arguments mk {F}.
Definition GetLocation {F : Float32} (T : t) : FVector.t := Translation T.
Definition GetRotation {F : Float32} (T : t) : FQuat.t := Rotation T.
End FTransform.

(** What [CarlaServer.cpp] calls in Unreal Engine. *)
Class UnrealEngine {F : Float32} := {
  (** [FQuat::GetForwardVector] *)
  GetForwardVector : FQuat.t -> FVector.t;
  (** [FRotator::Vector] *)
  Vector : FRotator.t -> FVector.t;
  (** [FVector::DotProduct] *)
  DotProduct : FVector.t -> FVector.t -> float;
  (** [GetTypeHash] of a pointer, from the address of the object to a
      [uint32] *)
  PointerHash : Z -> Z;
  (** a pixel, and [FColor::DWColor], its four channels as one [uint32] *)
  FColor : Type;
  DWColor : FColor -> Z
}.

(** What [CarlaServer.cpp] uses of the Carla plugin without defining it:
    the settings object, the post-process effect enumeration and the
    compile-time switch [CARLA_SERVER_EXTRA_LOG]. *)
Class CarlaPlugin := {
  UCarlaSettings : Type;
  (** [UCarlaSettings::LoadSettingsFromString] *)
  LoadSettingsFromString : UCarlaSettings -> string -> UCarlaSettings;
  EPostProcessEffect : Type;
  (** [PostProcessEffect::ToUInt] *)
  ToUInt : EPostProcessEffect -> Z;
  (** [true] when the build defines [CARLA_SERVER_EXTRA_LOG] *)
  CARLA_SERVER_EXTRA_LOG : bool
}.

(* ========================================================================= *)
(** * Wire records ([carla/carla_server.h]) *)
(* ========================================================================= *)

(** A C pointer to an array is the array it points to, [None] for
    [nullptr]. *)

Module carla_vector3d.
Record t {F : Float32} := mk { x : float; y : float; z : float }.
Arguments mk {F}.
End carla_vector3d.

Module carla_transform.
Record t {F : Float32} := mk {
  location : carla_vector3d.t;
  orientation : carla_vector3d.t
}.
Arguments mk {F}.
End carla_transform.

Module carla_image.
Record t := mk {
  width : Z;
  height : Z;
  type : Z;
  (** [const uint32_t *data] *)
  data : option (list Z)
}.
End carla_image.

Module carla_request_new_episode.
Record t := mk { ini_file : string; ini_file_length : Z }.
End carla_request_new_episode.

Module carla_scene_description.
Record t {F : Float32} := mk {
  player_start_spots : option (list carla_transform.t);
  number_of_player_start_spots : Z
}.
Arguments mk {F}.
End carla_scene_description.

Module carla_episode_start.
Record t := mk { player_start_spot_index : Z }.
End carla_episode_start.

Module carla_episode_ready.
Record t := mk { ready : bool }.
End carla_episode_ready.

Module carla_control.
Record t {F : Float32} := mk {
  steer : float;
  throttle : float;
  brake : float;
  hand_brake : bool;
  reverse : bool;
  autopilot : bool
}.
Arguments mk {F}.
End carla_control.

Module carla_agent.
Record t {F : Float32} := mk {
  id : Z;
  type : Z;
  transform : carla_transform.t;
  box_extent : carla_vector3d.t;
  forward_speed : float
}.
Arguments mk {F}.
End carla_agent.

Module carla_player_measurements.
Record t {F : Float32} := mk {
  transform : carla_transform.t;
  acceleration : carla_vector3d.t;
  forward_speed : float;
  collision_vehicles : float;
  collision_pedestrians : float;
  collision_other : float;
  intersection_otherlane : float;
  intersection_offroad : float
}.
Arguments mk {F}.
End carla_player_measurements.

Module carla_measurements.
Record t {F : Float32} := mk {
  platform_timestamp : Z;
  game_timestamp : Z;
  player_measurements : carla_player_measurements.t;
  (** [const carla_agent *non_player_agents] *)
  non_player_agents : option (list carla_agent.t);
  number_of_non_player_agents : Z
}.
Arguments mk {F}.
End carla_measurements.

(** The transport of [carla_server.h]. [CarlaServerPtr] is the state behind
    the opaque handle; every call may change it and returns a status code.
    A read returns the record it filled in. The time-out argument is the
    value of the argument expression at the call. *)
Class CarlaServerLib {F : Float32} := {
  CarlaServerPtr : Type;
  CARLA_SERVER_SUCCESS : Z;
  CARLA_SERVER_TRY_AGAIN : Z;
  CARLA_SERVER_AGENT_VEHICLE : Z;
  CARLA_SERVER_AGENT_PEDESTRIAN : Z;
  carla_server_connect : CarlaServerPtr -> Z -> Z -> CarlaServerPtr * Z;
  carla_read_request_new_episode :
    CarlaServerPtr -> Z -> CarlaServerPtr * (carla_request_new_episode.t * Z);
  carla_write_scene_description :
    CarlaServerPtr -> carla_scene_description.t -> Z -> CarlaServerPtr * Z;
  carla_read_episode_start :
    CarlaServerPtr -> Z -> CarlaServerPtr * (carla_episode_start.t * Z);
  carla_write_episode_ready :
    CarlaServerPtr -> carla_episode_ready.t -> Z -> CarlaServerPtr * Z;
  carla_read_control :
    CarlaServerPtr -> Z -> CarlaServerPtr * (carla_control.t * Z);
  carla_write_measurements :
    CarlaServerPtr -> carla_measurements.t -> option (list carla_image.t) ->
    Z -> CarlaServerPtr * Z
}.

(* ========================================================================= *)
(** * Simulation-side objects *)
(* ========================================================================= *)

(** An object of the simulation is the snapshot of what its accessors
    return; [Addr] is the address of the object, which is all a pointer hash
    sees. A nullable pointer to an object is an [option]. *)

Module ACharacter.
Record t {F : Float32} := mk {
  Addr : Z;
  ActorTransform : FTransform.t;
  Velocity : FVector.t;
  ActorRotation : FRotator.t
}.
Arguments mk {F}.
Definition GetActorTransform {F : Float32} (A : t) := ActorTransform A.
Definition GetVelocity {F : Float32} (A : t) := Velocity A.
Definition GetActorRotation {F : Float32} (A : t) := ActorRotation A.
End ACharacter.

Module APlayerStart.
Record t {F : Float32} := mk { ActorTransform : FTransform.t }.
Arguments mk {F}.
Definition GetActorTransform {F : Float32} (A : t) := ActorTransform A.
End APlayerStart.

Module ACarlaWheeledVehicle.
Record t {F : Float32} := mk {
  Addr : Z;
  ActorTransform : FTransform.t;
  VehicleForwardSpeed : float;
  VehicleBoundsExtent : FVector.t;
  SteeringInput : float;
  ThrottleInput : float;
  BrakeInput : float;
  HandbrakeInput : bool;
  Reverse : bool
}.
Arguments mk {F}.
Definition GetActorTransform {F : Float32} (V : t) := ActorTransform V.
Definition GetVehicleForwardSpeed {F : Float32} (V : t) := VehicleForwardSpeed V.
Definition GetVehicleBoundsExtent {F : Float32} (V : t) := VehicleBoundsExtent V.
(** Modelled from the spec: [CarlaWheeledVehicle.h] is not part of the
    sources; each of the five setters stores the input it is given (the
    controller collaborator "applies steering, throttle, brake, handbrake,
    and reverse inputs"). [SetSteeringInput] stores the steering. *)
Definition SetSteeringInput {F : Float32} (V : t) (Value : float) : t :=
  mk (Addr V) (ActorTransform V) (VehicleForwardSpeed V) (VehicleBoundsExtent V)
     Value (ThrottleInput V) (BrakeInput V) (HandbrakeInput V) (Reverse V).
(** Modelled from the spec: [CarlaWheeledVehicle.h] is not part of the
    sources; [SetThrottleInput] stores the throttle. *)
Definition SetThrottleInput {F : Float32} (V : t) (Value : float) : t :=
  mk (Addr V) (ActorTransform V) (VehicleForwardSpeed V) (VehicleBoundsExtent V)
     (SteeringInput V) Value (BrakeInput V) (HandbrakeInput V) (Reverse V).
(** Modelled from the spec: [CarlaWheeledVehicle.h] is not part of the
    sources; [SetBrakeInput] stores the brake. *)
Definition SetBrakeInput {F : Float32} (V : t) (Value : float) : t :=
  mk (Addr V) (ActorTransform V) (VehicleForwardSpeed V) (VehicleBoundsExtent V)
     (SteeringInput V) (ThrottleInput V) Value (HandbrakeInput V) (Reverse V).
(** Modelled from the spec: [CarlaWheeledVehicle.h] is not part of the
    sources; [SetHandbrakeInput] stores the handbrake. *)
Definition SetHandbrakeInput {F : Float32} (V : t) (Value : bool) : t :=
  mk (Addr V) (ActorTransform V) (VehicleForwardSpeed V) (VehicleBoundsExtent V)
     (SteeringInput V) (ThrottleInput V) (BrakeInput V) Value (Reverse V).
(** Modelled from the spec: [CarlaWheeledVehicle.h] is not part of the
    sources; [SetReverse] stores the reverse flag. *)
Definition SetReverse {F : Float32} (V : t) (Value : bool) : t :=
  mk (Addr V) (ActorTransform V) (VehicleForwardSpeed V) (VehicleBoundsExtent V)
     (SteeringInput V) (ThrottleInput V) (BrakeInput V) (HandbrakeInput V) Value.
End ACarlaWheeledVehicle.

Module ACarlaVehicleController.
Record t {F : Float32} := mk {
  bAutopilotEnabled : bool;
  (** the pawn the controller drives, [nullptr] when it possesses none *)
  PossessedVehicle : option ACarlaWheeledVehicle.t
}.
Arguments mk {F}.
(** Modelled from the spec: [CarlaVehicleController.h] is not part of the
    sources; the controller "exposes an autopilot toggle and a possessing a
    body predicate". [SetAutopilot] stores the flag. *)
Definition SetAutopilot {F : Float32} (P : t) (Value : bool) : t :=
  mk Value (PossessedVehicle P).
(** Modelled from the spec: [CarlaVehicleController.h] is not part of the
    sources; the controller possesses a vehicle when its pointer to one is
    not null. *)
Definition IsPossessingAVehicle {F : Float32} (P : t) : bool :=
  match PossessedVehicle P with Some _ => true | None => false end.
(** Modelled from the spec: [CarlaVehicleController.h] is not part of the
    sources; [GetPossessedVehicle] returns the pointer to the vehicle. *)
Definition GetPossessedVehicle {F : Float32} (P : t) :
  option ACarlaWheeledVehicle.t := PossessedVehicle P.
(** Writing through the pointer [GetPossessedVehicle] returned changes the
    vehicle the controller possesses. *)
Definition StorePossessedVehicle {F : Float32} (P : t)
  (V : ACarlaWheeledVehicle.t) : t := mk (bAutopilotEnabled P) (Some V).
End ACarlaVehicleController.

Module FCapturedImage.
Record t {F : Float32} {UE : UnrealEngine} {CP : CarlaPlugin} := mk {
  SizeX : Z;
  SizeY : Z;
  PostProcessEffect : EPostProcessEffect;
  BitMap : list FColor
}.
Arguments mk {F UE CP}.
End FCapturedImage.

Module AWalkerSpawnerBase.
Record t {F : Float32} := mk {
  CurrentNumberOfWalkers : Z;
  WalkersWhiteList : list (option ACharacter.t);
  WalkersBlackList : list (option ACharacter.t)
}.
Arguments mk {F}.
Definition GetCurrentNumberOfWalkers {F : Float32} (S : t) :=
  CurrentNumberOfWalkers S.
Definition GetWalkersWhiteList {F : Float32} (S : t) := WalkersWhiteList S.
Definition GetWalkersBlackList {F : Float32} (S : t) := WalkersBlackList S.
End AWalkerSpawnerBase.

Module AVehicleSpawnerBase.
Record t {F : Float32} := mk {
  NumberOfSpawnedVehicles : Z;
  Vehicles : list (option ACarlaWheeledVehicle.t)
}.
Arguments mk {F}.
Definition GetNumberOfSpawnedVehicles {F : Float32} (S : t) :=
  NumberOfSpawnedVehicles S.
Definition GetVehicles {F : Float32} (S : t) := Vehicles S.
End AVehicleSpawnerBase.

Module ACarlaGameState.
Record t {F : Float32} := mk {
  WalkerSpawner : option AWalkerSpawnerBase.t;
  VehicleSpawner : option AVehicleSpawnerBase.t
}.
Arguments mk {F}.
Definition GetWalkerSpawner {F : Float32} (G : t) := WalkerSpawner G.
Definition GetVehicleSpawner {F : Float32} (G : t) := VehicleSpawner G.
End ACarlaGameState.

Module ACarlaPlayerState.
Record t {F : Float32} {UE : UnrealEngine} {CP : CarlaPlugin} := mk {
  PlatformTimeStamp : Z;
  GameTimeStamp : Z;
  Transform : FTransform.t;
  Acceleration : FVector.t;
  ForwardSpeed : float;
  CollisionIntensityCars : float;
  CollisionIntensityPedestrians : float;
  CollisionIntensityOther : float;
  OtherLaneIntersectionFactor : float;
  OffRoadIntersectionFactor : float;
  Images : list FCapturedImage.t
}.
Arguments mk {F UE CP}.
Section Getters.
Context {F : Float32} {UE : UnrealEngine} {CP : CarlaPlugin}.
Definition GetPlatformTimeStamp (P : t) := PlatformTimeStamp P.
Definition GetGameTimeStamp (P : t) := GameTimeStamp P.
Definition GetTransform (P : t) := Transform P.
Definition GetAcceleration (P : t) := Acceleration P.
Definition GetForwardSpeed (P : t) := ForwardSpeed P.
Definition GetCollisionIntensityCars (P : t) := CollisionIntensityCars P.
Definition GetCollisionIntensityPedestrians (P : t) :=
  CollisionIntensityPedestrians P.
Definition GetCollisionIntensityOther (P : t) := CollisionIntensityOther P.
Definition GetOtherLaneIntersectionFactor (P : t) :=
  OtherLaneIntersectionFactor P.
Definition GetOffRoadIntersectionFactor (P : t) := OffRoadIntersectionFactor P.
Definition GetImages (P : t) := Images P.
(** Modelled from the spec: [CarlaPlayerState.h] is not part of the sources;
    the player state exposes "a list of currently captured images", and the
    number of images is the length of that list. *)
Definition GetNumberOfImages (P : t) : Z := Z.of_nat (length (Images P)).
End Getters.
End ACarlaPlayerState.

(* ========================================================================= *)
(** * The log and the server object *)
(* ========================================================================= *)

Inductive ELogVerbosity := Log | Warning.

Inductive LogArg {F : Float32} :=
| ArgInt (n : Z)
| ArgFloat (f : float)
| ArgText (s : string).

(** One [UE_LOG(LogCarlaServer, Verbosity, Format, Args...)]. *)
Record LogLine {F : Float32} := mkLogLine {
  Verbosity : ELogVerbosity;
  Format : string;
  Args : list LogArg
}.
Arguments mkLogLine {F}.

(** [CarlaServer::ErrorCode] *)
Inductive ErrorCode := Success | TryAgain | Error.

#[global] Instance ErrorCode_eq_dec : EqDecision ErrorCode.
Proof. solve_decision. Defined.

(** The data members of class [CarlaServer]. *)
Module CarlaServer.
Record t {F : Float32} {L : CarlaServerLib} := mk {
  WorldPort : Z;
  TimeOut : Z;
  Server : CarlaServerPtr
}.
Arguments mk {F L}.
End CarlaServer.

(** What a member function of [CarlaServer] can read and change besides its
    arguments: the object itself and the log category [LogCarlaServer], the
    oldest line first. *)
Record World {F : Float32} {L : CarlaServerLib} := mkWorld {
  this : CarlaServer.t;
  LogCarlaServer : list LogLine
}.
Arguments mkWorld {F L}.

(** A call either returns, with a value and the world it leaves, or stops the
    process on a failed [check]. *)
Inductive Outcome {F : Float32} {L : CarlaServerLib} (A : Type) :=
| Returned (a : A) (w : World)
| CheckFailed (expr : string).
Arguments Returned {F L A}.
Arguments CheckFailed {F L A}.

Section Monad.
Context {F : Float32} {L : CarlaServerLib}.

Definition M (A : Type) : Type := World -> Outcome A.

Definition ret {A : Type} (a : A) : M A := fun w => Returned a w.

Definition bind {A B : Type} (m : M A) (k : A -> M B) : M B :=
  fun w =>
    match m w with
    | Returned a w' => k a w'
    | CheckFailed e => CheckFailed e
    end.

(** [UE_LOG(LogCarlaServer, V, Fmt, Args...)] *)
Definition UE_LOG (V : ELogVerbosity) (Fmt : string) (As : list LogArg) :
  M unit :=
  fun w =>
    Returned tt (mkWorld (this w) (LogCarlaServer w ++ [mkLogLine V Fmt As])).

(** [check(expr)]: a fatal error when the expression is false. *)
Definition check (b : bool) (expr : string) : M unit :=
  fun w => if b then Returned tt w else CheckFailed expr.

(** Reading the members [TimeOut] and [WorldPort]. *)
Definition get_TimeOut : M Z := fun w => Returned (CarlaServer.TimeOut (this w)) w.
Definition get_WorldPort : M Z :=
  fun w => Returned (CarlaServer.WorldPort (this w)) w.

(** A call of the transport on the member [Server]. *)
Definition on_Server {A : Type}
  (f : CarlaServerPtr -> CarlaServerPtr * A) : M A :=
  fun w =>
    let '(S', a) := f (CarlaServer.Server (this w)) in
    Returned a
      (mkWorld
         (CarlaServer.mk (CarlaServer.WorldPort (this w))
            (CarlaServer.TimeOut (this w)) S')
         (LogCarlaServer w)).

(** The indices of [for (auto i = 0; i < N; ++i)]. *)
Definition indices (N : Z) : list nat := seq 0 (Z.to_nat N).

(** A [for] loop over indices whose body runs in [M]. *)
Fixpoint ForM {S : Type} (idx : list nat) (body : nat -> S -> M S) (s : S) :
  M S :=
  match idx with
  | [] => ret s
  | i :: rest => bind (body i s) (fun s' => ForM rest body s')
  end.

End Monad.

Notation "x <- m ;; k" := (bind m (fun x => k))
  (at level 100, m at next level, right associativity).
Notation "m ;;; k" := (bind m (fun _ => k))
  (at level 100, right associativity).

(* ========================================================================= *)
(** * CarlaServer.cpp *)
(* ========================================================================= *)

Section StaticLocalMethods.
Context {F : Float32} {L : CarlaServerLib}.

(** [static CarlaServer::ErrorCode ParseErrorCode(const uint32 ErrorCode)] *)
Definition ParseErrorCode (Code : Z) : ErrorCode :=
  if Code =? CARLA_SERVER_SUCCESS then Success
  else if Code =? CARLA_SERVER_TRY_AGAIN then TryAgain
  else Error.

End StaticLocalMethods.

(** [static int32 GetTimeOut(uint32 TimeOut, const bool bBlocking)]: the
    conditional is a [uint32], the function returns it as an [int32]. *)
Definition GetTimeOut (TimeOut : Z) (bBlocking : bool) : Z :=
  to_int32 (if bBlocking then TimeOut else 0).

(** ** Set functions

    The C++ overloads one name, [Set(lhs, rhs)]; here each overload has the
    name of what it writes, takes the old [lhs] and returns the new one. *)
Section SetFunctions.
Context {F : Float32} {UE : UnrealEngine} {CP : CarlaPlugin}
  {L : CarlaServerLib}.

Definition Set_float (lhs : float) (rhs : float) : float := rhs.

Definition Set_vector3d (lhs : carla_vector3d.t) (rhs : FVector.t) :
  carla_vector3d.t :=
  carla_vector3d.mk (FVector.X rhs) (FVector.Y rhs) (FVector.Z rhs).

Definition Set_transform (lhs : carla_transform.t) (rhs : FTransform.t) :
  carla_transform.t :=
  let location :=
    Set_vector3d (carla_transform.location lhs) (FTransform.GetLocation rhs) in
  let orientation :=
    Set_vector3d (carla_transform.orientation lhs)
      (GetForwardVector (FTransform.GetRotation rhs)) in
  carla_transform.mk location orientation.

(** Code between [#ifdef CARLA_SERVER_EXTRA_LOG] and [#endif]. *)
Definition ifdef_CARLA_SERVER_EXTRA_LOG (m : M unit) : M unit :=
  if CARLA_SERVER_EXTRA_LOG then m else ret tt.

(** [TArray::Num] *)
Definition Num {A : Type} (a : list A) : Z := Z.of_nat (length a).

(** [static void Set(carla_image &cImage, const FCapturedImage &uImage)].
    The [else] of the test on the bitmap is itself inside the [#ifdef]: a
    build without [CARLA_SERVER_EXTRA_LOG] has no [else] branch. The pointer
    to the first pixel is the bitmap read as [uint32] words. *)
Definition Set_image (cImage : carla_image.t) (uImage : FCapturedImage.t) :
  M carla_image.t :=
  if 0 <? Num (FCapturedImage.BitMap uImage) then
    let cImage :=
      carla_image.mk
        (FCapturedImage.SizeX uImage)
        (FCapturedImage.SizeY uImage)
        (ToUInt (FCapturedImage.PostProcessEffect uImage))
        (Some (map DWColor (FCapturedImage.BitMap uImage))) in
    ifdef_CARLA_SERVER_EXTRA_LOG
      (UE_LOG Log "Sending image %dx%d (%d) type %d"
         [ArgInt (carla_image.width cImage);
          ArgInt (carla_image.height cImage);
          ArgInt (Num (FCapturedImage.BitMap uImage));
          ArgInt (carla_image.type cImage)]) ;;;
    ret cImage
  else
    ifdef_CARLA_SERVER_EXTRA_LOG
      (UE_LOG Warning "Sending empty image" []) ;;;
    ret cImage.

End SetFunctions.

(** ** Member functions of CarlaServer *)
Section Members.
Context {F : Float32} {UE : UnrealEngine} {CP : CarlaPlugin}
  {L : CarlaServerLib}.

(** Value-initialised wire records, as [MakeUnique<T[]>(n)] and
    [TArray::Emplace()] produce them. *)
Definition carla_vector3d_zero : carla_vector3d.t :=
  carla_vector3d.mk float_zero float_zero float_zero.
Definition carla_transform_zero : carla_transform.t :=
  carla_transform.mk carla_vector3d_zero carla_vector3d_zero.
Definition carla_image_zero : carla_image.t := carla_image.mk 0 0 0 None.
Definition carla_agent_zero : carla_agent.t :=
  carla_agent.mk 0 0 carla_transform_zero carla_vector3d_zero float_zero.

(** [MakeUnique<T[]>(n)]: an array of [n] value-initialised elements. *)
Definition MakeUnique {A : Type} (zero : A) (n : Z) : list A :=
  replicate (Z.to_nat n) zero.

(** [FString(InCount, InSrc)]: the first [InCount] characters of [InSrc]. *)
Definition FString (InCount : Z) (InSrc : string) : string :=
  substring 0 (Z.to_nat InCount) InSrc.

(** The format ["Received CarlaSettings.ini:\n%s"]. *)
Definition Received_CarlaSettings_format : string :=
  "Received CarlaSettings.ini:" ++ String "010"%char "%s".

Definition Connect : M ErrorCode :=
  UE_LOG Log "Waiting for the client to connect..." [] ;;;
  WorldPort <- get_WorldPort ;;
  TimeOut <- get_TimeOut ;;
  code <- on_Server (fun S => carla_server_connect S WorldPort TimeOut) ;;
  ret (ParseErrorCode code).

(** [Settings] is passed by reference: the function returns it next to the
    error code. *)
Definition ReadNewEpisode (Settings : UCarlaSettings) (bBlocking : bool) :
  M (ErrorCode * UCarlaSettings) :=
  TimeOut <- get_TimeOut ;;
  r <- on_Server (fun S =>
         carla_read_request_new_episode S (GetTimeOut TimeOut bBlocking)) ;;
  let values := r.1 in
  let ec := ParseErrorCode r.2 in
  if decide (Success = ec) then
    let IniFile :=
      FString (carla_request_new_episode.ini_file_length values)
        (carla_request_new_episode.ini_file values) in
    UE_LOG Log "Received new episode" [] ;;;
    ifdef_CARLA_SERVER_EXTRA_LOG
      (UE_LOG Log Received_CarlaSettings_format [ArgText IniFile]) ;;;
    ret (ec, LoadSettingsFromString Settings IniFile)
  else
    ret (ec, Settings).

(** The start spots are dereferenced without a test: the array holds the
    objects. *)
Definition SendSceneDescription (AvailableStartSpots : list APlayerStart.t)
  (bBlocking : bool) : M ErrorCode :=
  let NumberOfStartSpots := Num AvailableStartSpots in
  let StartSpots := MakeUnique carla_transform_zero NumberOfStartSpots in
  let StartSpots :=
    fold_left
      (fun (StartSpots : list carla_transform.t) (i : nat) =>
         match StartSpots !! i, AvailableStartSpots !! i with
         | Some lhs, Some Spot =>
             <[i := Set_transform lhs (APlayerStart.GetActorTransform Spot)]>
               StartSpots
         | _, _ => StartSpots
         end)
      (indices NumberOfStartSpots) StartSpots in
  UE_LOG Log "Sending %d available start positions"
    [ArgInt NumberOfStartSpots] ;;;
  let scene := carla_scene_description.mk (Some StartSpots) NumberOfStartSpots in
  TimeOut <- get_TimeOut ;;
  code <- on_Server (fun S =>
            carla_write_scene_description S scene
              (GetTimeOut TimeOut bBlocking)) ;;
  ret (ParseErrorCode code).

(** [StartPositionIndex] is passed by reference: the function returns it next
    to the error code. *)
Definition ReadEpisodeStart (StartPositionIndex : Z) (bBlocking : bool) :
  M (ErrorCode * Z) :=
  TimeOut <- get_TimeOut ;;
  r <- on_Server (fun S =>
         carla_read_episode_start S (GetTimeOut TimeOut bBlocking)) ;;
  let values := r.1 in
  let ec := ParseErrorCode r.2 in
  if decide (Success = ec) then
    let StartPositionIndex :=
      carla_episode_start.player_start_spot_index values in
    UE_LOG Log "Episode start received: { StartIndex = %d }"
      [ArgInt StartPositionIndex] ;;;
    ret (ec, StartPositionIndex)
  else
    ret (ec, StartPositionIndex).

Definition SendEpisodeReady (bBlocking : bool) : M ErrorCode :=
  UE_LOG Log "Ready to play, notifying client" [] ;;;
  let values := carla_episode_ready.mk true in
  TimeOut <- get_TimeOut ;;
  code <- on_Server (fun S =>
            carla_write_episode_ready S values
              (GetTimeOut TimeOut bBlocking)) ;;
  ret (ParseErrorCode code).

Definition Sync_or_Async (bBlocking : bool) : string :=
  if bBlocking then "Sync" else "Async".

Definition True_or_False (b : bool) : string :=
  if b then "True" else "False".

(** [Player] is passed by reference: the function returns it next to the
    error code. The five setters write through the pointer to the possessed
    vehicle. *)
Definition ReadControl (Player : ACarlaVehicleController.t)
  (bBlocking : bool) : M (ErrorCode * ACarlaVehicleController.t) :=
  TimeOut <- get_TimeOut ;;
  r <- on_Server (fun S =>
         carla_read_control S (GetTimeOut TimeOut bBlocking)) ;;
  let values := r.1 in
  let ec := ParseErrorCode r.2 in
  if decide (Success = ec) then
    let Player :=
      ACarlaVehicleController.SetAutopilot Player
        (carla_control.autopilot values) in
    if negb (carla_control.autopilot values) then
      check (ACarlaVehicleController.IsPossessingAVehicle Player)
        "Player.IsPossessingAVehicle()" ;;;
      match ACarlaVehicleController.GetPossessedVehicle Player with
      | Some Vehicle =>
          let Vehicle :=
            ACarlaWheeledVehicle.SetSteeringInput Vehicle
              (carla_control.steer values) in
          let Vehicle :=
            ACarlaWheeledVehicle.SetThrottleInput Vehicle
              (carla_control.throttle values) in
          let Vehicle :=
            ACarlaWheeledVehicle.SetBrakeInput Vehicle
              (carla_control.brake values) in
          let Vehicle :=
            ACarlaWheeledVehicle.SetHandbrakeInput Vehicle
              (carla_control.hand_brake values) in
          let Vehicle :=
            ACarlaWheeledVehicle.SetReverse Vehicle
              (carla_control.reverse values) in
          let Player :=
            ACarlaVehicleController.StorePossessedVehicle Player Vehicle in
          ifdef_CARLA_SERVER_EXTRA_LOG
            (UE_LOG Log
               "Read control (%s): { Steer = %f, Throttle = %f, Brake = %f, Handbrake = %s, Reverse = %s }"
               [ArgText (Sync_or_Async bBlocking);
                ArgFloat (carla_control.steer values);
                ArgFloat (carla_control.throttle values);
                ArgFloat (carla_control.brake values);
                ArgText (True_or_False (carla_control.hand_brake values));
                ArgText (True_or_False (carla_control.reverse values))]) ;;;
          ret (ec, Player)
      | None =>
          (* not reached: [check] has stopped the call *)
          fun _ => CheckFailed "Player.GetPossessedVehicle() != nullptr"
      end
    else
      ifdef_CARLA_SERVER_EXTRA_LOG
        (UE_LOG Log "Read control (%s): { Autopilot = On }"
           [ArgText (Sync_or_Async bBlocking)]) ;;;
      ret (ec, Player)
  else if negb bBlocking && bool_decide (TryAgain = ec) then
    UE_LOG Warning "No control received from the client this frame!" [] ;;;
    ret (ec, Player)
  else
    ret (ec, Player).

End Members.

(** ** Agents *)

(** What the template [AddAgents<T>] asks of an actor type [T]: a pointer
    hash, [GetActorTransform] and an overload of [SetBoxAndSpeed]. *)
Class Actor {F : Float32} (T : Type) := {
  GetTypeHash : T -> Z;
  GetActorTransform : T -> FTransform.t;
  SetBoxAndSpeed : carla_agent.t -> T -> carla_agent.t
}.

Section Agents.
Context {F : Float32} {UE : UnrealEngine} {CP : CarlaPlugin}
  {L : CarlaServerLib}.

(** Assignments to the fields of a [carla_agent]. *)
Definition assign_id (values : carla_agent.t) (v : Z) : carla_agent.t :=
  carla_agent.mk v (carla_agent.type values) (carla_agent.transform values)
    (carla_agent.box_extent values) (carla_agent.forward_speed values).
Definition assign_type (values : carla_agent.t) (v : Z) : carla_agent.t :=
  carla_agent.mk (carla_agent.id values) v (carla_agent.transform values)
    (carla_agent.box_extent values) (carla_agent.forward_speed values).
Definition assign_transform (values : carla_agent.t) (v : carla_transform.t) :
  carla_agent.t :=
  carla_agent.mk (carla_agent.id values) (carla_agent.type values) v
    (carla_agent.box_extent values) (carla_agent.forward_speed values).
Definition assign_box_extent (values : carla_agent.t) (v : carla_vector3d.t) :
  carla_agent.t :=
  carla_agent.mk (carla_agent.id values) (carla_agent.type values)
    (carla_agent.transform values) v (carla_agent.forward_speed values).
Definition assign_forward_speed (values : carla_agent.t) (v : float) :
  carla_agent.t :=
  carla_agent.mk (carla_agent.id values) (carla_agent.type values)
    (carla_agent.transform values) (carla_agent.box_extent values) v.

(** [static void SetBoxAndSpeed(carla_agent &values, const ACharacter *Walker)] *)
Definition SetBoxAndSpeed_Walker (values : carla_agent.t)
  (Walker : ACharacter.t) : carla_agent.t :=
  let values :=
    assign_forward_speed values
      (float_mul
         (DotProduct (ACharacter.GetVelocity Walker)
            (Vector (ACharacter.GetActorRotation Walker)))
         (float_lit 36 (-3))) in
  assign_box_extent values
    (carla_vector3d.mk (float_lit 45 0) (float_lit 35 0) (float_lit 100 0)).

(** [static void SetBoxAndSpeed(carla_agent &values,
    const ACarlaWheeledVehicle *Vehicle)] *)
Definition SetBoxAndSpeed_Vehicle (values : carla_agent.t)
  (Vehicle : ACarlaWheeledVehicle.t) : carla_agent.t :=
  let values :=
    assign_forward_speed values
      (ACarlaWheeledVehicle.GetVehicleForwardSpeed Vehicle) in
  assign_box_extent values
    (Set_vector3d (carla_agent.box_extent values)
       (ACarlaWheeledVehicle.GetVehicleBoundsExtent Vehicle)).

#[global] Instance ACharacter_Actor : Actor ACharacter.t := {
  GetTypeHash Walker := PointerHash (ACharacter.Addr Walker);
  GetActorTransform := ACharacter.GetActorTransform;
  SetBoxAndSpeed := SetBoxAndSpeed_Walker
}.

#[global] Instance ACarlaWheeledVehicle_Actor :
  Actor ACarlaWheeledVehicle.t := {
  GetTypeHash Vehicle := PointerHash (ACarlaWheeledVehicle.Addr Vehicle);
  GetActorTransform := ACarlaWheeledVehicle.GetActorTransform;
  SetBoxAndSpeed := SetBoxAndSpeed_Vehicle
}.

(** The body of the loop of [AddAgents] on a non-null actor: the element
    [Emplace] appended, after the four statements that fill it. *)
Definition agent_of {T : Type} {AT : Actor T} (Actor : T) (type : Z) :
  carla_agent.t :=
  let values := carla_agent_zero in
  let values := assign_id values (GetTypeHash Actor) in
  let values := assign_type values type in
  let values :=
    assign_transform values
      (Set_transform (carla_agent.transform values) (GetActorTransform Actor)) in
  SetBoxAndSpeed values Actor.

(** [template <typename T> static void AddAgents(TArray<carla_agent> &Agents,
    const TArray<T> &Actors, uint32 type)], [T] a pointer type. *)
Definition AddAgents {T : Type} {AT : Actor T} (Agents : list carla_agent.t)
  (Actors : list (option T)) (type : Z) : list carla_agent.t :=
  fold_left
    (fun (Agents : list carla_agent.t) (Actor : option T) =>
       match Actor with
       | Some Actor => Agents ++ [agent_of Actor type]
       | None => Agents
       end)
    Actors Agents.

(** [TArray::Reserve] changes the capacity of the array, not its content. *)
Definition Reserve {A : Type} (a : list A) (Number : Z) : list A := a.

(** [static void GetAgentInfo(const ACarlaGameState &GameState,
    TArray<carla_agent> &Agents)] *)
Definition GetAgentInfo (GameState : ACarlaGameState.t)
  (Agents : list carla_agent.t) : list carla_agent.t :=
  let WalkerSpawner := ACarlaGameState.GetWalkerSpawner GameState in
  let VehicleSpawner := ACarlaGameState.GetVehicleSpawner GameState in
  let NumberOfAgents := 0 in
  let NumberOfAgents :=
    match WalkerSpawner with
    | Some WS =>
        to_uint32
          (NumberOfAgents + AWalkerSpawnerBase.GetCurrentNumberOfWalkers WS)
    | None => NumberOfAgents
    end in
  let NumberOfAgents :=
    match VehicleSpawner with
    | Some VS =>
        to_uint32
          (NumberOfAgents + AVehicleSpawnerBase.GetNumberOfSpawnedVehicles VS)
    | None => NumberOfAgents
    end in
  let Agents := Reserve Agents NumberOfAgents in
  let Agents :=
    match WalkerSpawner with
    | Some WS =>
        let Agents :=
          AddAgents Agents (AWalkerSpawnerBase.GetWalkersWhiteList WS)
            CARLA_SERVER_AGENT_PEDESTRIAN in
        AddAgents Agents (AWalkerSpawnerBase.GetWalkersBlackList WS)
          CARLA_SERVER_AGENT_PEDESTRIAN
    | None => Agents
    end in
  match VehicleSpawner with
  | Some VS =>
      AddAgents Agents (AVehicleSpawnerBase.GetVehicles VS)
        CARLA_SERVER_AGENT_VEHICLE
  | None => Agents
  end.

(** The snapshot [SendMeasurements] assembles before it looks at the images. *)
Definition Measurements (GameState : ACarlaGameState.t)
  (PlayerState : ACarlaPlayerState.t) (bSendNonPlayerAgentsInfo : bool) :
  carla_measurements.t :=
  let player :=
    carla_player_measurements.mk
      (Set_transform carla_transform_zero
         (ACarlaPlayerState.GetTransform PlayerState))
      (Set_vector3d carla_vector3d_zero
         (ACarlaPlayerState.GetAcceleration PlayerState))
      (Set_float float_zero (ACarlaPlayerState.GetForwardSpeed PlayerState))
      (Set_float float_zero
         (ACarlaPlayerState.GetCollisionIntensityCars PlayerState))
      (Set_float float_zero
         (ACarlaPlayerState.GetCollisionIntensityPedestrians PlayerState))
      (Set_float float_zero
         (ACarlaPlayerState.GetCollisionIntensityOther PlayerState))
      (Set_float float_zero
         (ACarlaPlayerState.GetOtherLaneIntersectionFactor PlayerState))
      (Set_float float_zero
         (ACarlaPlayerState.GetOffRoadIntersectionFactor PlayerState)) in
  let Agents : list carla_agent.t := [] in
  let Agents :=
    if bSendNonPlayerAgentsInfo then GetAgentInfo GameState Agents
    else Agents in
  carla_measurements.mk
    (ACarlaPlayerState.GetPlatformTimeStamp PlayerState)
    (ACarlaPlayerState.GetGameTimeStamp PlayerState)
    player
    (if 0 <? Num Agents then Some Agents else None)
    (Num Agents).

(** The loop of [SendMeasurements] over the captured images. *)
Definition SetImages (PlayerState : ACarlaPlayerState.t)
  (NumberOfImages : Z) (images : list carla_image.t) :
  M (list carla_image.t) :=
  ForM (indices NumberOfImages)
    (fun i images =>
       match images !! i, ACarlaPlayerState.GetImages PlayerState !! i with
       | Some cImage, Some uImage =>
           cImage <- Set_image cImage uImage ;;
           ret (<[i := cImage]> images)
       | _, _ => ret images
       end)
    images.

Definition SendMeasurements (GameState : ACarlaGameState.t)
  (PlayerState : ACarlaPlayerState.t) (bSendNonPlayerAgentsInfo : bool) :
  M ErrorCode :=
  let values := Measurements GameState PlayerState bSendNonPlayerAgentsInfo in
  ifdef_CARLA_SERVER_EXTRA_LOG
    (UE_LOG Log "Sending data of %d agents"
       [ArgInt (carla_measurements.number_of_non_player_agents values)]) ;;;
  let NumberOfImages := ACarlaPlayerState.GetNumberOfImages PlayerState in
  images <-
    (if 0 <? NumberOfImages then
       images <- SetImages PlayerState NumberOfImages
                   (MakeUnique carla_image_zero NumberOfImages) ;;
       ret (Some images)
     else ret None) ;;
  code <- on_Server (fun S =>
            carla_write_measurements S values images NumberOfImages) ;;
  ret (ParseErrorCode code).

End Agents.

(** ** The world a call leaves *)
Section Worlds.
Context {F : Float32} {CP : CarlaPlugin} {L : CarlaServerLib}.

(** The world after the transport moved to [S'] and the lines [lines] were
    logged. *)
Definition after (w : World) (S' : CarlaServerPtr) (lines : list LogLine) :
  World :=
  mkWorld
    (CarlaServer.mk (CarlaServer.WorldPort (this w))
       (CarlaServer.TimeOut (this w)) S')
    (LogCarlaServer w ++ lines).

(** The lines a block under [#ifdef CARLA_SERVER_EXTRA_LOG] adds. *)
Definition extra_log (lines : list LogLine) : list LogLine :=
  if CARLA_SERVER_EXTRA_LOG then lines else [].

(** What a call may do to the world: it keeps the port and the time-out the
    server was built with, and it only adds lines to the log. *)
Definition extends (w w' : World) : Prop :=
  CarlaServer.WorldPort (this w') = CarlaServer.WorldPort (this w) /\
  CarlaServer.TimeOut (this w') = CarlaServer.TimeOut (this w) /\
  exists lines, LogCarlaServer w' = LogCarlaServer w ++ lines.

End Worlds.

(** ** What the description says is sent

    Definitions that follow the words of the description, to compare with
    what the functions above compute. *)
Section Described.
Context {F : Float32} {UE : UnrealEngine} {CP : CarlaPlugin}
  {L : CarlaServerLib}.

(** The objects an array of pointers points to, in order, null pointers
    left out. *)
Definition present {T : Type} (Actors : list (option T)) : list T :=
  omap id Actors.

Definition whitelist_walkers (GameState : ACarlaGameState.t) :
  list ACharacter.t :=
  match ACarlaGameState.WalkerSpawner GameState with
  | Some WS => present (AWalkerSpawnerBase.WalkersWhiteList WS)
  | None => []
  end.

Definition blacklist_walkers (GameState : ACarlaGameState.t) :
  list ACharacter.t :=
  match ACarlaGameState.WalkerSpawner GameState with
  | Some WS => present (AWalkerSpawnerBase.WalkersBlackList WS)
  | None => []
  end.

Definition spawned_vehicles (GameState : ACarlaGameState.t) :
  list ACarlaWheeledVehicle.t :=
  match ACarlaGameState.VehicleSpawner GameState with
  | Some VS => present (AVehicleSpawnerBase.Vehicles VS)
  | None => []
  end.

(** The wire record of a walker, tagged pedestrian, and of a vehicle, tagged
    vehicle. *)
Definition pedestrian_agent (Walker : ACharacter.t) : carla_agent.t :=
  agent_of Walker CARLA_SERVER_AGENT_PEDESTRIAN.

Definition vehicle_agent (Vehicle : ACarlaWheeledVehicle.t) : carla_agent.t :=
  agent_of Vehicle CARLA_SERVER_AGENT_VEHICLE.

(** "Pedestrians before vehicles; within each, whitelist before blacklist
    for walkers." *)
Definition described_agent_list (GameState : ACarlaGameState.t) :
  list carla_agent.t :=
  map pedestrian_agent (whitelist_walkers GameState)
  ++ map pedestrian_agent (blacklist_walkers GameState)
  ++ map vehicle_agent (spawned_vehicles GameState).

(** The array behind a pointer, empty for [nullptr]. *)
Definition array_at {A : Type} (p : option (list A)) : list A :=
  default [] p.

(** The agent list of a snapshot. *)
Definition agents_sent (values : carla_measurements.t) : list carla_agent.t :=
  array_at (carla_measurements.non_player_agents values).

(** The wire image of a captured image whose slot was value-initialised:
    filled in when the bitmap has pixels, left zeroed when it has none. *)
Definition wire_image (uImage : FCapturedImage.t) : carla_image.t :=
  match FCapturedImage.BitMap uImage with
  | [] => carla_image_zero
  | _ :: _ =>
      carla_image.mk
        (FCapturedImage.SizeX uImage)
        (FCapturedImage.SizeY uImage)
        (ToUInt (FCapturedImage.PostProcessEffect uImage))
        (Some (map DWColor (FCapturedImage.BitMap uImage)))
  end.

(** The lines the conversion of one captured image logs. *)
Definition image_log (uImage : FCapturedImage.t) : list LogLine :=
  match FCapturedImage.BitMap uImage with
  | [] => extra_log [mkLogLine Warning "Sending empty image" []]
  | _ :: _ =>
      extra_log
        [mkLogLine Log "Sending image %dx%d (%d) type %d"
           [ArgInt (FCapturedImage.SizeX uImage);
            ArgInt (FCapturedImage.SizeY uImage);
            ArgInt (Num (FCapturedImage.BitMap uImage));
            ArgInt (ToUInt (FCapturedImage.PostProcessEffect uImage))]]
  end.

End Described.

(* ========================================================================= *)
(** * A reference implementation of the collaborators

    Exact rational arithmetic for the floats, rotations by quaternions with
    rational components, and a scripted client for the transport. The
    concrete runs further down use them; no general result does. *)
(* ========================================================================= *)

Module Reference.

Definition ExactFloat : Float32 := {|
  float := Q;
  float_zero := 0%Q;
  float_mul := Qmult;
  float_lit m e := (inject_Z m * Qpower (10 # 1) e)%Q
|}.

#[local] Existing Instance ExactFloat.

(** The image of the X axis under the rotation of a unit quaternion. *)
Definition forward_of_quat (q : FQuat.t) : FVector.t :=
  let x := FQuat.X q in
  let y := FQuat.Y q in
  let z := FQuat.Z q in
  let w := FQuat.W q in
  FVector.mk (1 - (2 # 1) * (y * y + z * z))%Q
    ((2 # 1) * (x * y + w * z))%Q
    ((2 # 1) * (x * z - w * y))%Q.

(** Headings along the axes of the ground plane, by the yaw in degrees. *)
Definition heading_of_rotator (r : FRotator.t) : FVector.t :=
  if Qeq_bool (FRotator.Yaw r) (90 # 1) then FVector.mk 0%Q 1%Q 0%Q
  else if Qeq_bool (FRotator.Yaw r) (180 # 1) then FVector.mk (-1 # 1)%Q 0%Q 0%Q
  else if Qeq_bool (FRotator.Yaw r) (-90 # 1) then FVector.mk 0%Q (-1 # 1)%Q 0%Q
  else FVector.mk 1%Q 0%Q 0%Q.

Definition GridEngine : UnrealEngine := {|
  GetForwardVector := forward_of_quat;
  Vector := heading_of_rotator;
  DotProduct a b :=
    (FVector.X a * FVector.X b + FVector.Y a * FVector.Y b
     + FVector.Z a * FVector.Z b)%Q;
  PointerHash := to_uint32;
  FColor := Z;
  DWColor c := c
|}.

Inductive Effect := NoEffect | SceneFinal | Depth | SemanticSegmentation.

(** The plugin with settings kept as the text last loaded; [extra_log] is
    the switch [CARLA_SERVER_EXTRA_LOG]. *)
Definition Plugin (extra_log : bool) : CarlaPlugin := {|
  UCarlaSettings := string;
  LoadSettingsFromString _ IniFile := IniFile;
  EPostProcessEffect := Effect;
  ToUInt e :=
    match e with
    | NoEffect => 0
    | SceneFinal => 1
    | Depth => 2
    | SemanticSegmentation => 3
    end;
  CARLA_SERVER_EXTRA_LOG := extra_log
|}.

(** A scripted client: the status codes of the coming calls, the records the
    reads deliver, and the time-outs the calls were given, the latest
    first. A call that finds no code left answers try-again: the client has
    gone silent. *)
Record Script := mkScript {
  codes : list Z;
  request : carla_request_new_episode.t;
  start : carla_episode_start.t;
  control : carla_control.t;
  waits : list Z
}.

(** The status code of the next call. *)
Definition next_code (S : Script) : list Z * Z :=
  match codes S with
  | [] => ([], 1)
  | c :: rest => (rest, c)
  end.

(** A call that carries a time-out. *)
Definition answer (S : Script) (timeout : Z) : Script * Z :=
  let '(rest, c) := next_code S in
  (mkScript rest (request S) (start S) (control S) (timeout :: waits S), c).

(** A call that carries none. *)
Definition answer_now (S : Script) : Script * Z :=
  let '(rest, c) := next_code S in
  (mkScript rest (request S) (start S) (control S) (waits S), c).

Definition ScriptedClient : CarlaServerLib := {|
  CarlaServerPtr := Script;
  CARLA_SERVER_SUCCESS := 0;
  CARLA_SERVER_TRY_AGAIN := 1;
  CARLA_SERVER_AGENT_VEHICLE := 0;
  CARLA_SERVER_AGENT_PEDESTRIAN := 1;
  carla_server_connect S port timeout := answer S timeout;
  carla_read_request_new_episode S timeout :=
    let '(S', c) := answer S timeout in (S', (request S, c));
  carla_write_scene_description S scene timeout := answer S timeout;
  carla_read_episode_start S timeout :=
    let '(S', c) := answer S timeout in (S', (start S, c));
  carla_write_episode_ready S values timeout := answer S timeout;
  carla_read_control S timeout :=
    let '(S', c) := answer S timeout in (S', (control S, c));
  carla_write_measurements S values images number_of_images := answer_now S
|}.

(** *** Concrete worlds and objects *)

Definition QuietPlugin : CarlaPlugin := Plugin false.
Definition VerbosePlugin : CarlaPlugin := Plugin true.

#[local] Existing Instance GridEngine.
#[local] Existing Instance QuietPlugin.
#[local] Existing Instance ScriptedClient.

(** Steer half left, full throttle, reverse gear, by hand. *)
Definition manual_command : carla_control.t :=
  carla_control.mk (-1 # 2)%Q 1%Q 0%Q false true false.

Definition no_request : carla_request_new_episode.t :=
  carla_request_new_episode.mk "" 0.

(** A server on port 2000 with the time-out [TimeOut], connected to a client
    that will answer with [codes] and drive by [manual_command]; nothing
    logged yet. *)
Definition world_with (TimeOut : Z) (codes : list Z) : World :=
  mkWorld
    (CarlaServer.mk 2000 TimeOut
       (mkScript codes no_request (carla_episode_start.mk 1) manual_command
          []))
    [].

Definition origin : FVector.t := FVector.mk 0%Q 0%Q 0%Q.

(** Two transforms at the same place, the second rolled half a turn about
    its forward axis. *)
Definition upright : FTransform.t :=
  FTransform.mk (FQuat.mk 0%Q 0%Q 0%Q 1%Q) (FVector.mk 1%Q 2%Q 3%Q)
    (FVector.mk 1%Q 1%Q 1%Q).

Definition rolled : FTransform.t :=
  FTransform.mk (FQuat.mk 1%Q 0%Q 0%Q 0%Q) (FVector.mk 1%Q 2%Q 3%Q)
    (FVector.mk 1%Q 1%Q 1%Q).

Definition parked_car : ACarlaWheeledVehicle.t :=
  ACarlaWheeledVehicle.mk 4096 upright 0%Q (FVector.mk 230%Q 90%Q 75%Q)
    0%Q 0%Q 0%Q true false.

Definition driver : ACarlaVehicleController.t :=
  ACarlaVehicleController.mk true (Some parked_car).

Definition walker_at (Addr : Z) (Yaw : Q) (Velocity : FVector.t) :
  ACharacter.t :=
  ACharacter.mk Addr upright Velocity (FRotator.mk 0%Q Yaw 0%Q).

(** Two walkers, one on each list, a null entry on the white list, and one
    vehicle. *)
Definition town : ACarlaGameState.t :=
  ACarlaGameState.mk
    (Some
       (AWalkerSpawnerBase.mk 2
          [Some (walker_at 256 0%Q (FVector.mk 100%Q 0%Q 0%Q)); None]
          [Some (walker_at 512 90%Q (FVector.mk 0%Q 50%Q 0%Q))]))
    (Some (AVehicleSpawnerBase.mk 1 [Some parked_car])).

(** The actors of [town] behind other arrays: null entries in other places
    and counters that count nothing. *)
Definition town_padded : ACarlaGameState.t :=
  ACarlaGameState.mk
    (Some
       (AWalkerSpawnerBase.mk 40
          [None; Some (walker_at 256 0%Q (FVector.mk 100%Q 0%Q 0%Q))]
          [None; None; Some (walker_at 512 90%Q (FVector.mk 0%Q 50%Q 0%Q))]))
    (Some (AVehicleSpawnerBase.mk 0 [Some parked_car; None])).

(** A player at rest with the captured images [Images]. *)
Definition player_with (Images : list FCapturedImage.t) :
  ACarlaPlayerState.t :=
  ACarlaPlayerState.mk 10 20 upright origin 0%Q 0%Q 0%Q 0%Q 0%Q 0%Q Images.

(** A frame the camera did not deliver, and a frame of two pixels. *)
Definition missing_frame : FCapturedImage.t :=
  FCapturedImage.mk 800 600 SceneFinal [].

Definition tiny_frame : FCapturedImage.t :=
  FCapturedImage.mk 2 1 Depth [4278190080; 4294967295].

End Reference.

(* ========================================================================= *)
(** * Properties *)
(* ========================================================================= *)

(** ** Time-outs *)

Lemma to_int32_small (z : Z) : 0 <= z < 2 ^ 31 -> to_int32 z = z.
Proof.
  intros Hz. unfold to_int32.
  rewrite Z.mod_small by lia. lia.
Qed.

Lemma to_int32_large (z : Z) :
  2 ^ 31 <= z < 2 ^ 32 -> to_int32 z = z - 2 ^ 32.
Proof.
  intros Hz. unfold to_int32.
  replace (z + 2 ^ 31) with ((z - 2 ^ 31) + 1 * 2 ^ 32) by lia.
  rewrite Z.mod_add by lia.
  rewrite Z.mod_small by lia. lia.
Qed.

Lemma to_uint32_to_int32 (z : Z) : to_uint32 (to_int32 z) = to_uint32 z.
Proof.
  unfold to_uint32, to_int32.
  rewrite Zminus_mod, Zmod_mod, <- Zminus_mod.
  f_equal. lia.
Qed.

(** A non-blocking call waits zero milliseconds. *)
Lemma GetTimeOut_non_blocking (TimeOut : Z) : GetTimeOut TimeOut false = 0.
Proof. reflexivity. Qed.

(** A blocking call waits the configured time-out as long as that fits a
    signed 32-bit integer. *)
Lemma GetTimeOut_blocking_small (TimeOut : Z) :
  0 <= TimeOut < 2 ^ 31 -> GetTimeOut TimeOut true = TimeOut.
Proof. intros H. unfold GetTimeOut. by apply to_int32_small. Qed.

(** Above that the value returned is negative. *)
Lemma GetTimeOut_blocking_large (TimeOut : Z) :
  2 ^ 31 <= TimeOut < 2 ^ 32 ->
  GetTimeOut TimeOut true = TimeOut - 2 ^ 32 /\ GetTimeOut TimeOut true < 0.
Proof.
  intros H. unfold GetTimeOut. rewrite to_int32_large by done. lia.
Qed.

(** The 32 bits returned are those of the configured time-out, or zero. *)
Lemma GetTimeOut_bits (TimeOut : Z) (bBlocking : bool) :
  is_uint32 TimeOut ->
  to_uint32 (GetTimeOut TimeOut bBlocking) = if bBlocking then TimeOut else 0.
Proof.
  unfold is_uint32, uint32_max, GetTimeOut. intros H.
  rewrite to_uint32_to_int32. unfold to_uint32.
  destruct bBlocking; rewrite Z.mod_small; lia.
Qed.

Section Properties.
Context {F : Float32} {UE : UnrealEngine} {CP : CarlaPlugin}
  {L : CarlaServerLib}.

(** ** Error codes *)

Lemma ParseErrorCode_SUCCESS : ParseErrorCode CARLA_SERVER_SUCCESS = Success.
Proof. unfold ParseErrorCode. by rewrite Z.eqb_refl. Qed.

Lemma ParseErrorCode_Success_inv (Code : Z) :
  ParseErrorCode Code = Success -> Code = CARLA_SERVER_SUCCESS.
Proof.
  unfold ParseErrorCode.
  destruct (Z.eqb_spec Code CARLA_SERVER_SUCCESS) as [->|Hne]; [done|].
  by destruct (Code =? CARLA_SERVER_TRY_AGAIN).
Qed.

Ltac run :=
  unfold bind, ret, UE_LOG, get_TimeOut, get_WorldPort, on_Server, check,
    ifdef_CARLA_SERVER_EXTRA_LOG, extra_log, after;
  simpl.

Ltac tidy_log := simpl; rewrite <- ?app_assoc, ?app_nil_r; simpl.

(** ** SendEpisodeReady *)

(** C9. [SendEpisodeReady] hands the transport the record [{true}], whatever
    the world it runs in and whether it blocks or not, logs one line and
    returns the parsed status of that write; so two calls from the same
    world hand over the same record and leave the same world. *)
Theorem SendEpisodeReady_record (bBlocking : bool) (w : World) :
  let reply :=
    carla_write_episode_ready (CarlaServer.Server (this w))
      (carla_episode_ready.mk true)
      (GetTimeOut (CarlaServer.TimeOut (this w)) bBlocking) in
  SendEpisodeReady bBlocking w =
  Returned (ParseErrorCode reply.2)
    (after w reply.1
       [mkLogLine Log "Ready to play, notifying client" []]).
Proof.
  unfold SendEpisodeReady. run.
  by destruct (carla_write_episode_ready _ _ _) as [S' code].
Qed.

(** ** The reads leave their out-parameter alone unless they succeed *)

(** C10. [ReadNewEpisode] and [ReadEpisodeStart] always return; when the
    error code returned is not [Success], that is [TryAgain] or [Error], the
    settings object, respectively the start position index, comes back as
    it went in. *)
Theorem reads_atomic_on_failure (bBlocking : bool) (w : World)
  (Settings : UCarlaSettings) (StartPositionIndex : Z) :
  (exists ec Settings' w',
     ReadNewEpisode Settings bBlocking w = Returned (ec, Settings') w' /\
     (ec <> Success -> Settings' = Settings)) /\
  (exists ec StartPositionIndex' w',
     ReadEpisodeStart StartPositionIndex bBlocking w =
       Returned (ec, StartPositionIndex') w' /\
     (ec <> Success -> StartPositionIndex' = StartPositionIndex)).
Proof.
  split.
  - unfold ReadNewEpisode. run.
    destruct (carla_read_request_new_episode _ _) as [S' [values code]].
    simpl. destruct (decide (Success = ParseErrorCode code)) as [Heq|Hne].
    + run. destruct CARLA_SERVER_EXTRA_LOG; simpl;
        (eexists _, _, _; split; [reflexivity|]; intros Hbad; by destruct Hbad).
    + eexists _, _, _. split; [reflexivity|]. done.
  - unfold ReadEpisodeStart. run.
    destruct (carla_read_episode_start _ _) as [S' [values code]].
    simpl. destruct (decide (Success = ParseErrorCode code)) as [Heq|Hne].
    + run. eexists _, _, _. split; [reflexivity|]. intros Hbad.
      by destruct Hbad.
    + eexists _, _, _. split; [reflexivity|]. done.
Qed.

(** The settings are loaded exactly when the read succeeds, from the first
    [ini_file_length] characters of the text received. *)
Lemma ReadNewEpisode_run (bBlocking : bool) (w : World)
  (Settings : UCarlaSettings) :
  let reply :=
    carla_read_request_new_episode (CarlaServer.Server (this w))
      (GetTimeOut (CarlaServer.TimeOut (this w)) bBlocking) in
  let IniFile :=
    FString (carla_request_new_episode.ini_file_length reply.2.1)
      (carla_request_new_episode.ini_file reply.2.1) in
  ReadNewEpisode Settings bBlocking w =
  match ParseErrorCode reply.2.2 with
  | Success =>
      Returned (Success, LoadSettingsFromString Settings IniFile)
        (after w reply.1
           (mkLogLine Log "Received new episode" [] ::
            extra_log
              [mkLogLine Log Received_CarlaSettings_format
                 [ArgText IniFile]]))
  | ec => Returned (ec, Settings) (after w reply.1 [])
  end.
Proof.
  unfold ReadNewEpisode. run.
  destruct (carla_read_request_new_episode _ _) as [S' [values code]].
  simpl. destruct (ParseErrorCode code) eqn:Hec; simpl.
  - run. by destruct CARLA_SERVER_EXTRA_LOG; tidy_log.
  - run. by tidy_log.
  - run. by tidy_log.
Qed.

(** ** The other calls that take a blocking flag *)

Lemma ReadEpisodeStart_run (bBlocking : bool) (w : World)
  (StartPositionIndex : Z) :
  let reply :=
    carla_read_episode_start (CarlaServer.Server (this w))
      (GetTimeOut (CarlaServer.TimeOut (this w)) bBlocking) in
  let received := carla_episode_start.player_start_spot_index reply.2.1 in
  ReadEpisodeStart StartPositionIndex bBlocking w =
  match ParseErrorCode reply.2.2 with
  | Success =>
      Returned (Success, received)
        (after w reply.1
           [mkLogLine Log "Episode start received: { StartIndex = %d }"
              [ArgInt received]])
  | ec => Returned (ec, StartPositionIndex) (after w reply.1 [])
  end.
Proof.
  unfold ReadEpisodeStart. run.
  destruct (carla_read_episode_start _ _) as [S' [values code]].
  simpl. destruct (ParseErrorCode code) eqn:Hec; simpl; run; by tidy_log.
Qed.

(** The loop of [SendSceneDescription], started at index [length pre] with
    the slots before it filled in. *)
Lemma StartSpots_from (todo pre : list APlayerStart.t) :
  forall filled : list carla_transform.t,
  length filled = length pre ->
  fold_left
    (fun (StartSpots : list carla_transform.t) (i : nat) =>
       match StartSpots !! i, (pre ++ todo) !! i with
       | Some lhs, Some Spot =>
           <[i := Set_transform lhs (APlayerStart.GetActorTransform Spot)]>
             StartSpots
       | _, _ => StartSpots
       end)
    (seq (length pre) (length todo))
    (filled ++ replicate (length todo) carla_transform_zero) =
  filled ++
  map (fun Spot =>
         Set_transform carla_transform_zero
           (APlayerStart.GetActorTransform Spot)) todo.
Proof.
  revert pre. induction todo as [|Spot todo IH]; intros pre filled Hlen.
  - done.
  - simpl.
    rewrite (list_lookup_middle filled _ carla_transform_zero (length pre))
      by done.
    rewrite (list_lookup_middle pre todo Spot (length pre)) by done.
    rewrite <- Hlen.
    rewrite (insert_app_r_alt filled) by done.
    rewrite Nat.sub_diag. simpl. rewrite Hlen.
    specialize (IH (pre ++ [Spot])
      (filled ++
       [Set_transform carla_transform_zero
          (APlayerStart.GetActorTransform Spot)])).
    rewrite <- !app_assoc, !length_app in IH. simpl in IH.
    replace (length pre + 1)%nat with (S (length pre)) in IH by lia.
    apply IH. lia.
Qed.

(** [SendSceneDescription] writes one wire transform per start spot, in
    order, and their number. *)
Lemma SendSceneDescription_run (AvailableStartSpots : list APlayerStart.t)
  (bBlocking : bool) (w : World) :
  let scene :=
    carla_scene_description.mk
      (Some
         (map (fun Spot =>
                 Set_transform carla_transform_zero
                   (APlayerStart.GetActorTransform Spot))
            AvailableStartSpots))
      (Num AvailableStartSpots) in
  let reply :=
    carla_write_scene_description (CarlaServer.Server (this w)) scene
      (GetTimeOut (CarlaServer.TimeOut (this w)) bBlocking) in
  SendSceneDescription AvailableStartSpots bBlocking w =
  Returned (ParseErrorCode reply.2)
    (after w reply.1
       [mkLogLine Log "Sending %d available start positions"
          [ArgInt (Num AvailableStartSpots)]]).
Proof.
  unfold SendSceneDescription, MakeUnique, indices, Num.
  rewrite Nat2Z.id.
  pose proof (StartSpots_from AvailableStartSpots [] [] eq_refl) as Hloop.
  simpl in Hloop. rewrite Hloop.
  run. by destruct (carla_write_scene_description _ _ _) as [S' code].
Qed.

(** [Connect] hands the transport the port and the time-out as configured. *)
Lemma Connect_run (w : World) :
  let reply :=
    carla_server_connect (CarlaServer.Server (this w))
      (CarlaServer.WorldPort (this w)) (CarlaServer.TimeOut (this w)) in
  Connect w =
  Returned (ParseErrorCode reply.2)
    (after w reply.1
       [mkLogLine Log "Waiting for the client to connect..." []]).
Proof.
  unfold Connect. run. by destruct (carla_server_connect _ _ _) as [S' code].
Qed.

(** ** ReadControl *)

(** C7. When the transport answers a non-blocking [ReadControl] with a code
    that parses to [TryAgain], the call returns (it does not stop on a
    [check]) with [TryAgain], the controller comes back as it went in, its
    autopilot flag and its possessed vehicle included, and the only line
    logged is the warning. *)
Theorem ReadControl_TryAgain (Player : ACarlaVehicleController.t)
  (w : World) :
  let reply :=
    carla_read_control (CarlaServer.Server (this w))
      (GetTimeOut (CarlaServer.TimeOut (this w)) false) in
  ParseErrorCode reply.2.2 = TryAgain ->
  ReadControl Player false w =
  Returned (TryAgain, Player)
    (after w reply.1
       [mkLogLine Warning "No control received from the client this frame!"
          []]).
Proof.
  unfold ReadControl. run.
  destruct (carla_read_control _ _) as [S' [values code]]. simpl.
  intros ->. simpl. run. done.
Qed.

(** The possessed vehicle after the five setters of the manual branch. *)
Lemma manual_inputs_applied (Vehicle : ACarlaWheeledVehicle.t)
  (values : carla_control.t) :
  let Vehicle' :=
    ACarlaWheeledVehicle.SetReverse
      (ACarlaWheeledVehicle.SetHandbrakeInput
         (ACarlaWheeledVehicle.SetBrakeInput
            (ACarlaWheeledVehicle.SetThrottleInput
               (ACarlaWheeledVehicle.SetSteeringInput Vehicle
                  (carla_control.steer values))
               (carla_control.throttle values))
            (carla_control.brake values))
         (carla_control.hand_brake values))
      (carla_control.reverse values) in
  ACarlaWheeledVehicle.SteeringInput Vehicle' = carla_control.steer values /\
  ACarlaWheeledVehicle.ThrottleInput Vehicle' = carla_control.throttle values /\
  ACarlaWheeledVehicle.BrakeInput Vehicle' = carla_control.brake values /\
  ACarlaWheeledVehicle.HandbrakeInput Vehicle' =
    carla_control.hand_brake values /\
  ACarlaWheeledVehicle.Reverse Vehicle' = carla_control.reverse values /\
  ACarlaWheeledVehicle.Addr Vehicle' = ACarlaWheeledVehicle.Addr Vehicle /\
  ACarlaWheeledVehicle.ActorTransform Vehicle' =
    ACarlaWheeledVehicle.ActorTransform Vehicle /\
  ACarlaWheeledVehicle.VehicleForwardSpeed Vehicle' =
    ACarlaWheeledVehicle.VehicleForwardSpeed Vehicle /\
  ACarlaWheeledVehicle.VehicleBoundsExtent Vehicle' =
    ACarlaWheeledVehicle.VehicleBoundsExtent Vehicle.
Proof. by destruct Vehicle. Qed.

(** C3. When the transport answers [ReadControl] with a code that parses to
    [Success]:
    - a command with the autopilot on sets the autopilot flag and leaves the
      possessed vehicle alone;
    - a manual command to a controller that possesses a vehicle clears the
      autopilot flag and stores all five inputs of the command in that
      vehicle, and the call returns [Success];
    - a manual command to a controller that possesses no vehicle stops on
      the [check]: the call does not return [Error], it does not return. *)
Theorem ReadControl_Success (Player : ACarlaVehicleController.t)
  (bBlocking : bool) (w : World) :
  let reply :=
    carla_read_control (CarlaServer.Server (this w))
      (GetTimeOut (CarlaServer.TimeOut (this w)) bBlocking) in
  let values := reply.2.1 in
  ParseErrorCode reply.2.2 = Success ->
  match carla_control.autopilot values,
        ACarlaVehicleController.PossessedVehicle Player with
  | true, Possessed =>
      exists w',
        ReadControl Player bBlocking w =
          Returned (Success, ACarlaVehicleController.mk true Possessed) w'
  | false, Some Vehicle =>
      exists Vehicle' w',
        ReadControl Player bBlocking w =
          Returned (Success, ACarlaVehicleController.mk false (Some Vehicle'))
            w' /\
        ACarlaWheeledVehicle.SteeringInput Vehicle' =
          carla_control.steer values /\
        ACarlaWheeledVehicle.ThrottleInput Vehicle' =
          carla_control.throttle values /\
        ACarlaWheeledVehicle.BrakeInput Vehicle' =
          carla_control.brake values /\
        ACarlaWheeledVehicle.HandbrakeInput Vehicle' =
          carla_control.hand_brake values /\
        ACarlaWheeledVehicle.Reverse Vehicle' = carla_control.reverse values
  | false, None =>
      ReadControl Player bBlocking w =
        CheckFailed "Player.IsPossessingAVehicle()"
  end.
Proof.
  unfold ReadControl. run.
  destruct (carla_read_control _ _) as [S' [values code]]. simpl.
  intros ->. simpl.
  destruct (carla_control.autopilot values) eqn:Hauto; simpl.
  - run. destruct CARLA_SERVER_EXTRA_LOG; by eexists.
  - unfold ACarlaVehicleController.IsPossessingAVehicle,
      ACarlaVehicleController.GetPossessedVehicle,
      ACarlaVehicleController.StorePossessedVehicle. simpl.
    destruct (ACarlaVehicleController.PossessedVehicle Player)
      as [Vehicle|]; simpl; [|done].
    run. destruct CARLA_SERVER_EXTRA_LOG;
      (eexists _, _; split; [reflexivity|]; by destruct Vehicle).
Qed.

(** ** Images *)

Lemma Num_pos_cons {A : Type} (x : A) (l : list A) : (0 <? Num (x :: l)) = true.
Proof. unfold Num. apply Z.ltb_lt. simpl. lia. Qed.

(** [Set] on an image, by the cases of the bitmap. *)
Lemma Set_image_cases (cImage : carla_image.t) (uImage : FCapturedImage.t)
  (w : World) :
  Set_image cImage uImage w =
  match FCapturedImage.BitMap uImage with
  | [] =>
      Returned cImage
        (mkWorld (this w)
           (LogCarlaServer w ++
            if CARLA_SERVER_EXTRA_LOG
            then [mkLogLine Warning "Sending empty image" []] else []))
  | pixel :: pixels =>
      Returned
        (carla_image.mk
           (FCapturedImage.SizeX uImage)
           (FCapturedImage.SizeY uImage)
           (ToUInt (FCapturedImage.PostProcessEffect uImage))
           (Some (DWColor pixel :: map DWColor pixels)))
        (mkWorld (this w) (LogCarlaServer w ++ image_log uImage))
  end.
Proof.
  unfold Set_image, image_log.
  destruct (FCapturedImage.BitMap uImage) as [|pixel pixels] eqn:Hbitmap.
  - change (0 <? Num []) with false. run.
    destruct CARLA_SERVER_EXTRA_LOG; simpl; [done|].
    destruct w; simpl. by rewrite app_nil_r.
  - rewrite Num_pos_cons. run.
    destruct CARLA_SERVER_EXTRA_LOG; simpl; [done|].
    destruct w; simpl. by rewrite app_nil_r.
Qed.

(** [Set] on an image, by the two definitions that follow the description. *)
Lemma Set_image_zero_run (uImage : FCapturedImage.t) (w : World) :
  Set_image carla_image_zero uImage w =
  Returned (wire_image uImage)
    (mkWorld (this w) (LogCarlaServer w ++ image_log uImage)).
Proof.
  rewrite Set_image_cases. unfold wire_image, image_log, extra_log.
  by destruct (FCapturedImage.BitMap uImage).
Qed.

(** The loop over the images, started at index [length pre] with the slots
    before it filled in: it fills the remaining slots in order. *)
Lemma SetImages_from (PlayerState : ACarlaPlayerState.t)
  (todo pre : list FCapturedImage.t) :
  ACarlaPlayerState.Images PlayerState = pre ++ todo ->
  forall (filled : list carla_image.t) (w : World),
  length filled = length pre ->
  ForM (seq (length pre) (length todo))
    (fun i images =>
       match images !! i, ACarlaPlayerState.GetImages PlayerState !! i with
       | Some cImage, Some uImage =>
           cImage <- Set_image cImage uImage ;;
           ret (<[i := cImage]> images)
       | _, _ => ret images
       end)
    (filled ++ replicate (length todo) carla_image_zero) w =
  Returned (filled ++ map wire_image todo)
    (mkWorld (this w) (LogCarlaServer w ++ concat (map image_log todo))).
Proof.
  unfold ACarlaPlayerState.GetImages.
  revert pre. induction todo as [|uImage todo IH]; intros pre HImages filled w Hlen.
  - simpl. unfold ret. destruct w; simpl. by rewrite !app_nil_r.
  - simpl ForM. unfold bind at 1.
    rewrite (list_lookup_middle filled _ carla_image_zero (length pre))
      by done.
    rewrite HImages.
    rewrite (list_lookup_middle pre todo uImage (length pre)) by done.
    unfold bind at 1. rewrite Set_image_zero_run. unfold ret at 1.
    rewrite <- Hlen.
    rewrite (insert_app_r_alt filled) by done.
    rewrite Nat.sub_diag. simpl.
    rewrite Hlen.
    specialize (IH (pre ++ [uImage])).
    rewrite <- app_assoc in IH. specialize (IH HImages).
    specialize (IH (filled ++ [wire_image uImage])
      (mkWorld (this w) (LogCarlaServer w ++ image_log uImage))).
    rewrite !length_app in IH. simpl in IH.
    rewrite <- !app_assoc in IH. simpl in IH.
    replace (length pre + 1)%nat with (S (length pre)) in IH by lia.
    rewrite HImages in IH.
    by rewrite IH by lia.
Qed.

(** The loop of [SendMeasurements] returns one wire image per captured image,
    in order. *)
Lemma SetImages_run (PlayerState : ACarlaPlayerState.t) (w : World) :
  let NumberOfImages := ACarlaPlayerState.GetNumberOfImages PlayerState in
  SetImages PlayerState NumberOfImages
    (MakeUnique carla_image_zero NumberOfImages) w =
  Returned (map wire_image (ACarlaPlayerState.Images PlayerState))
    (mkWorld (this w)
       (LogCarlaServer w ++
        concat (map image_log (ACarlaPlayerState.Images PlayerState)))).
Proof.
  unfold SetImages, MakeUnique, indices, ACarlaPlayerState.GetNumberOfImages.
  simpl. rewrite Nat2Z.id.
  exact (SetImages_from PlayerState (ACarlaPlayerState.Images PlayerState) []
           eq_refl [] w eq_refl).
Qed.

(** C2. [Set] on an image always returns. A captured image whose bitmap has
    pixels gives the wire image its width, height and effect type and a data
    pointer to the bitmap read as [uint32] words, the colour of the first
    pixel first. A captured image without pixels leaves the wire image as
    it was passed in, which in the loop of [SendMeasurements] is zeroed: the
    loop returns [wire_image] of every captured image, in order. A line is
    logged only in a build with [CARLA_SERVER_EXTRA_LOG]: without it the
    warning "Sending empty image" is not in the log. *)
Theorem Set_image_conversion (PlayerState : ACarlaPlayerState.t)
  (cImage : carla_image.t) (uImage : FCapturedImage.t) (w : World) :
  Set_image cImage uImage w =
    match FCapturedImage.BitMap uImage with
    | [] =>
        Returned cImage
          (mkWorld (this w)
             (LogCarlaServer w ++
              if CARLA_SERVER_EXTRA_LOG
              then [mkLogLine Warning "Sending empty image" []] else []))
    | pixel :: pixels =>
        Returned
          (carla_image.mk
             (FCapturedImage.SizeX uImage)
             (FCapturedImage.SizeY uImage)
             (ToUInt (FCapturedImage.PostProcessEffect uImage))
             (Some (DWColor pixel :: map DWColor pixels)))
          (mkWorld (this w) (LogCarlaServer w ++ image_log uImage))
    end /\
  SetImages PlayerState (ACarlaPlayerState.GetNumberOfImages PlayerState)
    (MakeUnique carla_image_zero
       (ACarlaPlayerState.GetNumberOfImages PlayerState)) w =
    Returned (map wire_image (ACarlaPlayerState.Images PlayerState))
      (mkWorld (this w)
         (LogCarlaServer w ++
          concat (map image_log (ACarlaPlayerState.Images PlayerState)))).
Proof. split; [apply Set_image_cases | apply SetImages_run]. Qed.

(** ** SendMeasurements *)

(** The lines [SendMeasurements] logs before the write. *)
Lemma SendMeasurements_run (GameState : ACarlaGameState.t)
  (PlayerState : ACarlaPlayerState.t) (bSendNonPlayerAgentsInfo : bool)
  (w : World) :
  let values := Measurements GameState PlayerState bSendNonPlayerAgentsInfo in
  let NumberOfImages := ACarlaPlayerState.GetNumberOfImages PlayerState in
  let images :=
    if 0 <? NumberOfImages
    then Some (map wire_image (ACarlaPlayerState.Images PlayerState))
    else None in
  let reply :=
    carla_write_measurements (CarlaServer.Server (this w)) values images
      NumberOfImages in
  SendMeasurements GameState PlayerState bSendNonPlayerAgentsInfo w =
  Returned (ParseErrorCode reply.2)
    (after w reply.1
       (extra_log
          [mkLogLine Log "Sending data of %d agents"
             [ArgInt (carla_measurements.number_of_non_player_agents values)]]
        ++ concat (map image_log (ACarlaPlayerState.Images PlayerState)))).
Proof.
  intros values NumberOfImages images reply.
  unfold SendMeasurements. fold values. fold NumberOfImages.
  unfold bind at 1.
  assert (Hlog : exists lines,
    ifdef_CARLA_SERVER_EXTRA_LOG
      (UE_LOG Log "Sending data of %d agents"
         [ArgInt (carla_measurements.number_of_non_player_agents values)]) w =
    Returned tt (mkWorld (this w) (LogCarlaServer w ++ lines)) /\
    lines =
    extra_log
      [mkLogLine Log "Sending data of %d agents"
         [ArgInt (carla_measurements.number_of_non_player_agents values)]]).
  { eexists. split; [|reflexivity]. run.
    destruct CARLA_SERVER_EXTRA_LOG; simpl; [done|].
    destruct w; simpl. by rewrite app_nil_r. }
  destruct Hlog as (lines & -> & Hlines). rewrite <- Hlines.
  subst reply images. unfold bind at 1.
  destruct (0 <? NumberOfImages) eqn:Hsome.
  - unfold bind at 1. subst NumberOfImages. rewrite SetImages_run.
    run. destruct (carla_write_measurements _ _ _ _) as [S' code]. simpl.
    by rewrite <- app_assoc.
  - assert (HNone : ACarlaPlayerState.Images PlayerState = []).
    { apply Z.ltb_ge in Hsome. subst NumberOfImages.
      unfold ACarlaPlayerState.GetNumberOfImages in Hsome.
      destruct (ACarlaPlayerState.Images PlayerState); [done|].
      simpl in Hsome. lia. }
    rewrite HNone. run.
    destruct (carla_write_measurements _ _ _ _) as [S' code]. simpl.
    by rewrite app_nil_r.
Qed.

(** C8. With no captured image [SendMeasurements] hands the write a null
    image array and the length 0, next to the snapshot; the call returns the
    parsed status of that write, hence [Success] when the transport reports
    success. *)
Theorem SendMeasurements_no_images (GameState : ACarlaGameState.t)
  (PlayerState : ACarlaPlayerState.t) (bSendNonPlayerAgentsInfo : bool)
  (w : World) :
  ACarlaPlayerState.GetNumberOfImages PlayerState = 0 ->
  let values := Measurements GameState PlayerState bSendNonPlayerAgentsInfo in
  let reply :=
    carla_write_measurements (CarlaServer.Server (this w)) values None 0 in
  SendMeasurements GameState PlayerState bSendNonPlayerAgentsInfo w =
    Returned (ParseErrorCode reply.2)
      (after w reply.1
         (extra_log
            [mkLogLine Log "Sending data of %d agents"
               [ArgInt
                  (carla_measurements.number_of_non_player_agents values)]]))
  /\ (reply.2 = CARLA_SERVER_SUCCESS -> ParseErrorCode reply.2 = Success).
Proof.
  intros Hzero values reply. split.
  - rewrite SendMeasurements_run. fold values. rewrite Hzero.
    change (0 <? 0) with false. fold reply.
    assert (HNone : ACarlaPlayerState.Images PlayerState = []).
    { unfold ACarlaPlayerState.GetNumberOfImages in Hzero.
      destruct (ACarlaPlayerState.Images PlayerState); [done|].
      simpl in Hzero. lia. }
    rewrite HNone. simpl. by rewrite app_nil_r.
  - intros ->. apply ParseErrorCode_SUCCESS.
Qed.

(** ** Transforms *)

(** C5. The wire transform holds the three coordinates of the location and
    the three coordinates of the forward vector of the rotation, and nothing
    else of the transform; so two transforms with the same location and the
    same forward vector have the same wire transform, whatever else (their
    roll, their scale) tells them apart. *)
Theorem Set_transform_forward_only (lhs1 lhs2 : carla_transform.t)
  (T1 T2 : FTransform.t) :
  FTransform.GetLocation T1 = FTransform.GetLocation T2 ->
  GetForwardVector (FTransform.GetRotation T1) =
    GetForwardVector (FTransform.GetRotation T2) ->
  Set_transform lhs1 T1 = Set_transform lhs2 T2 /\
  carla_transform.location (Set_transform lhs1 T1) =
    carla_vector3d.mk
      (FVector.X (FTransform.GetLocation T1))
      (FVector.Y (FTransform.GetLocation T1))
      (FVector.Z (FTransform.GetLocation T1)) /\
  carla_transform.orientation (Set_transform lhs1 T1) =
    carla_vector3d.mk
      (FVector.X (GetForwardVector (FTransform.GetRotation T1)))
      (FVector.Y (GetForwardVector (FTransform.GetRotation T1)))
      (FVector.Z (GetForwardVector (FTransform.GetRotation T1))).
Proof.
  intros Hlocation Hforward. unfold Set_transform, Set_vector3d. simpl.
  by rewrite Hlocation, Hforward.
Qed.

(** ** Agents *)

(** C6. For a walker [SetBoxAndSpeed] writes as forward speed the dot product
    of the velocity with the heading vector of the actor rotation, times the
    literal 0.036, and as box extent the constant (45, 35, 100); for a
    vehicle it writes the forward speed and the bounds extent the vehicle
    reports. Neither touches the other fields, and the agent [AddAgents]
    appends for a walker or a vehicle carries these values. *)
Theorem SetBoxAndSpeed_fields (values : carla_agent.t)
  (Walker : ACharacter.t) (Vehicle : ACarlaWheeledVehicle.t) (type : Z) :
  let speed_of_walker :=
    float_mul
      (DotProduct (ACharacter.Velocity Walker)
         (Vector (ACharacter.ActorRotation Walker)))
      (float_lit 36 (-3)) in
  let box_of_walker :=
    carla_vector3d.mk (float_lit 45 0) (float_lit 35 0) (float_lit 100 0) in
  let box_of_vehicle :=
    carla_vector3d.mk
      (FVector.X (ACarlaWheeledVehicle.VehicleBoundsExtent Vehicle))
      (FVector.Y (ACarlaWheeledVehicle.VehicleBoundsExtent Vehicle))
      (FVector.Z (ACarlaWheeledVehicle.VehicleBoundsExtent Vehicle)) in
  SetBoxAndSpeed values Walker =
    carla_agent.mk (carla_agent.id values) (carla_agent.type values)
      (carla_agent.transform values) box_of_walker speed_of_walker /\
  SetBoxAndSpeed values Vehicle =
    carla_agent.mk (carla_agent.id values) (carla_agent.type values)
      (carla_agent.transform values) box_of_vehicle
      (ACarlaWheeledVehicle.VehicleForwardSpeed Vehicle) /\
  carla_agent.forward_speed (agent_of Walker type) = speed_of_walker /\
  carla_agent.box_extent (agent_of Walker type) = box_of_walker /\
  carla_agent.forward_speed (agent_of Vehicle type) =
    ACarlaWheeledVehicle.VehicleForwardSpeed Vehicle /\
  carla_agent.box_extent (agent_of Vehicle type) = box_of_vehicle.
Proof. by repeat split. Qed.

(** The type tag of an agent is the one [AddAgents] was called with. *)
Lemma pedestrian_agent_type (Walker : ACharacter.t) :
  carla_agent.type (pedestrian_agent Walker) = CARLA_SERVER_AGENT_PEDESTRIAN.
Proof. reflexivity. Qed.

Lemma vehicle_agent_type (Vehicle : ACarlaWheeledVehicle.t) :
  carla_agent.type (vehicle_agent Vehicle) = CARLA_SERVER_AGENT_VEHICLE.
Proof. reflexivity. Qed.

(** [AddAgents] appends the agents of the non-null actors, in order. *)
Lemma AddAgents_app {T : Type} {AT : Actor T} (Actors : list (option T))
  (type : Z) :
  forall Agents : list carla_agent.t,
  AddAgents Agents Actors type =
  Agents ++ map (fun Actor => agent_of Actor type) (present Actors).
Proof.
  unfold AddAgents, present.
  induction Actors as [|[Actor|] Actors IH]; intros Agents; simpl.
  - by rewrite app_nil_r.
  - rewrite IH. by rewrite <- app_assoc.
  - apply IH.
Qed.

(** [GetAgentInfo] appends the described agent list. *)
Lemma GetAgentInfo_described (GameState : ACarlaGameState.t)
  (Agents : list carla_agent.t) :
  GetAgentInfo GameState Agents = Agents ++ described_agent_list GameState.
Proof.
  unfold GetAgentInfo, described_agent_list, whitelist_walkers,
    blacklist_walkers, spawned_vehicles, Reserve,
    ACarlaGameState.GetWalkerSpawner, ACarlaGameState.GetVehicleSpawner,
    AWalkerSpawnerBase.GetWalkersWhiteList,
    AWalkerSpawnerBase.GetWalkersBlackList, AVehicleSpawnerBase.GetVehicles.
  destruct (ACarlaGameState.WalkerSpawner GameState) as [WS|];
    destruct (ACarlaGameState.VehicleSpawner GameState) as [VS|];
    simpl; rewrite ?AddAgents_app, <- ?app_assoc, ?app_nil_r; done.
Qed.

Lemma map_type_pedestrians (Walkers : list ACharacter.t) :
  map carla_agent.type (map pedestrian_agent Walkers) =
  replicate (length Walkers) CARLA_SERVER_AGENT_PEDESTRIAN.
Proof. induction Walkers as [|W Walkers IH]; simpl; by f_equal. Qed.

Lemma map_type_vehicles (Vehicles : list ACarlaWheeledVehicle.t) :
  map carla_agent.type (map vehicle_agent Vehicles) =
  replicate (length Vehicles) CARLA_SERVER_AGENT_VEHICLE.
Proof. induction Vehicles as [|V Vehicles IH]; simpl; by f_equal. Qed.

(** C1. With non-player agent reporting on, the agent list of the snapshot
    [SendMeasurements] hands to the write is: the walkers of the white list,
    then the walkers of the black list, then the vehicles, each in the order
    of its array; the walkers carry the pedestrian tag and the vehicles the
    vehicle tag, and the count sent is the length of the list. With
    [walkers] walkers and [vehicles] vehicles in the game state the tags are
    [walkers] times pedestrian followed by [vehicles] times vehicle; for 2
    and 1 that is pedestrian, pedestrian, vehicle. *)
Theorem SendMeasurements_agent_order (GameState : ACarlaGameState.t)
  (PlayerState : ACarlaPlayerState.t) (w : World) (walkers vehicles : nat) :
  length (whitelist_walkers GameState ++ blacklist_walkers GameState) =
    walkers ->
  length (spawned_vehicles GameState) = vehicles ->
  let values := Measurements GameState PlayerState true in
  (exists images NumberOfImages lines,
     let reply :=
       carla_write_measurements (CarlaServer.Server (this w)) values images
         NumberOfImages in
     SendMeasurements GameState PlayerState true w =
       Returned (ParseErrorCode reply.2) (after w reply.1 lines)) /\
  agents_sent values =
    map pedestrian_agent (whitelist_walkers GameState)
    ++ map pedestrian_agent (blacklist_walkers GameState)
    ++ map vehicle_agent (spawned_vehicles GameState) /\
  map carla_agent.type (agents_sent values) =
    replicate walkers CARLA_SERVER_AGENT_PEDESTRIAN
    ++ replicate vehicles CARLA_SERVER_AGENT_VEHICLE /\
  length (agents_sent values) = (walkers + vehicles)%nat /\
  carla_measurements.number_of_non_player_agents values =
    Z.of_nat (walkers + vehicles).
Proof.
  intros Hwalkers Hvehicles values.
  assert (Hagents : agents_sent values = described_agent_list GameState).
  { unfold agents_sent, values, Measurements. simpl.
    rewrite GetAgentInfo_described. simpl.
    unfold Num. destruct (described_agent_list GameState); done. }
  assert (Hnumber : carla_measurements.number_of_non_player_agents values =
                    Z.of_nat (length (described_agent_list GameState))).
  { unfold values, Measurements. simpl.
    by rewrite GetAgentInfo_described. }
  assert (Hlength : length (described_agent_list GameState) =
                    (walkers + vehicles)%nat).
  { unfold described_agent_list. rewrite app_assoc, <- map_app.
    rewrite length_app, !length_map. lia. }
  split; [|split; [|split; [|split]]].
  - eexists _, _, _. simpl. apply SendMeasurements_run.
  - exact Hagents.
  - rewrite Hagents. unfold described_agent_list.
    rewrite app_assoc, <- map_app, map_app.
    rewrite map_type_pedestrians, map_type_vehicles.
    by rewrite Hwalkers, Hvehicles.
  - by rewrite Hagents.
  - by rewrite Hnumber, Hlength.
Qed.

End Properties.

(* ========================================================================= *)
(** * Concrete runs on the reference implementation *)
(* ========================================================================= *)

Section Runs.
Import Reference.
Local Existing Instance ExactFloat.
Local Existing Instance GridEngine.
Local Existing Instance QuietPlugin.
Local Existing Instance ScriptedClient.


(** The same server with a time-out of ten seconds: the blocking call waits
    ten seconds, the non-blocking one does not wait. *)
Example ten_seconds_wait :
  GetTimeOut 10000 true = 10000 /\ GetTimeOut 10000 false = 0.
Proof. by vm_compute. Qed.

(** C1, run: two walkers and one vehicle give three agents tagged pedestrian,
    pedestrian, vehicle; the null entry of the white list gives none. *)
Lemma SendMeasurements_agent_order_witness :
  map carla_agent.type
    (agents_sent (Measurements town (player_with []) true)) = [1; 1; 0] /\
  map carla_agent.id
    (agents_sent (Measurements town (player_with []) true)) =
    [256; 512; 4096] /\
  length (agents_sent (Measurements town (player_with []) true)) = 3%nat.
Proof.
  destruct (SendMeasurements_agent_order town (player_with [])
              (world_with 10000 [0]) 2 1 eq_refl eq_refl)
    as (_ & Hagents & Htypes & Hlength & _).
  split; [exact Htypes|]. split; [|exact Hlength].
  rewrite Hagents. reflexivity.
Defined.

(** C2, run: in a build without [CARLA_SERVER_EXTRA_LOG] the conversion of a
    frame without pixels returns the wire image untouched and logs nothing:
    no diagnostic is emitted. *)
Lemma Set_image_missing_frame_silent :
  exists w',
    Set_image carla_image_zero missing_frame (world_with 10000 []) =
      Returned carla_image_zero w' /\
    LogCarlaServer w' = [].
Proof. eexists. split; [vm_compute; reflexivity|]. reflexivity. Qed.

(** The same conversion in a build with the switch logs the warning. *)
Example Set_image_missing_frame_verbose :
  exists w',
    Set_image (CP := VerbosePlugin) carla_image_zero
      (FCapturedImage.mk (CP := VerbosePlugin) 800 600 SceneFinal [])
      (world_with 10000 []) =
      Returned carla_image_zero w' /\
    LogCarlaServer w' = [mkLogLine Warning "Sending empty image" []].
Proof. eexists. split; [vm_compute; reflexivity|]. reflexivity. Qed.

(** A frame with pixels: the data pointer starts at the colour of the first
    pixel. *)
Example Set_image_tiny_frame :
  exists w',
    Set_image carla_image_zero tiny_frame (world_with 10000 []) =
      Returned (carla_image.mk 2 1 2 (Some [4278190080; 4294967295])) w'.
Proof. eexists. vm_compute. reflexivity. Qed.

(** C3, run: a manual command read with success by a controller on autopilot
    that possesses a parked car. *)
Lemma ReadControl_Success_witness :
  exists Vehicle' w',
    ReadControl driver true (world_with 10000 [0]) =
      Returned (Success, ACarlaVehicleController.mk false (Some Vehicle')) w' /\
    ACarlaWheeledVehicle.SteeringInput Vehicle' = (-1 # 2)%Q /\
    ACarlaWheeledVehicle.ThrottleInput Vehicle' = 1%Q /\
    ACarlaWheeledVehicle.BrakeInput Vehicle' = 0%Q /\
    ACarlaWheeledVehicle.HandbrakeInput Vehicle' = false /\
    ACarlaWheeledVehicle.Reverse Vehicle' = true.
Proof.
  exact (ReadControl_Success driver true (world_with 10000 [0]) eq_refl).
Defined.

(** The same command to a controller that possesses no vehicle stops on the
    [check]. *)
Example ReadControl_manual_without_vehicle :
  ReadControl (ACarlaVehicleController.mk true None) true
    (world_with 10000 [0]) = CheckFailed "Player.IsPossessingAVehicle()".
Proof. reflexivity. Qed.

(** C5, run: the upright and the rolled transform differ and have one wire
    transform. *)
Lemma Set_transform_forward_only_witness :
  upright <> rolled /\
  Set_transform carla_transform_zero upright =
    Set_transform carla_transform_zero rolled.
Proof.
  split; [discriminate|].
  exact (proj1 (Set_transform_forward_only carla_transform_zero
                  carla_transform_zero upright rolled eq_refl eq_refl)).
Defined.

(** C7, run: the client is silent at a non-blocking [ReadControl]. *)
Lemma ReadControl_TryAgain_witness :
  exists w',
    ReadControl driver false (world_with 10000 [1]) =
      Returned (TryAgain, driver) w' /\
    LogCarlaServer w' =
      [mkLogLine Warning "No control received from the client this frame!"
         []].
Proof.
  eexists. split.
  - exact (ReadControl_TryAgain driver (world_with 10000 [1]) eq_refl).
  - reflexivity.
Defined.

(** C8, run: a snapshot without images, the write reporting success. *)
Lemma SendMeasurements_no_images_witness :
  exists w',
    SendMeasurements town (player_with []) true (world_with 10000 [0]) =
      Returned Success w'.
Proof.
  eexists.
  exact (proj1 (SendMeasurements_no_images town (player_with []) true
                  (world_with 10000 [0]) eq_refl)).
Defined.

(** C10, run: a silent client and a failing transport leave the settings and
    the start position index as they were. *)
Lemma reads_atomic_on_failure_witness :
  (exists ec w',
     ReadNewEpisode (CP := QuietPlugin) "Town01" false (world_with 10000 [1])
       = Returned (ec, "Town01") w' /\ ec = TryAgain) /\
  (exists ec w',
     ReadEpisodeStart 7 true (world_with 10000 [2]) = Returned (ec, 7) w' /\
     ec = Error).
Proof.
  split.
  - destruct (proj1 (reads_atomic_on_failure (CP := QuietPlugin) false
                       (world_with 10000 [1]) "Town01" 7))
      as (ec & Settings' & w' & Hrun & Hkept).
    assert (Hec : ec = TryAgain) by (vm_compute in Hrun; congruence).
    exists ec, w'. split; [|exact Hec].
    rewrite Hrun, Hkept; [reflexivity|]. rewrite Hec. discriminate.
  - destruct (proj2 (reads_atomic_on_failure (CP := QuietPlugin) true
                       (world_with 10000 [2]) "Town01" 7))
      as (ec & Index' & w' & Hrun & Hkept).
    assert (Hec : ec = Error) by (vm_compute in Hrun; congruence).
    exists ec, w'. split; [|exact Hec].
    rewrite Hrun, Hkept; [reflexivity|]. rewrite Hec. discriminate.
Defined.

(** A successful [ReadNewEpisode] loads the text received, a successful
    [ReadEpisodeStart] stores the index received. *)
Example reads_succeed :
  (exists w',
     ReadNewEpisode (CP := QuietPlugin) "Town01" true (world_with 10000 [0])
       = Returned (Success, "") w') /\
  (exists w',
     ReadEpisodeStart 7 true (world_with 10000 [0]) = Returned (Success, 1) w').
Proof. split; eexists; vm_compute; reflexivity. Qed.

End Runs.

(* ========================================================================= *)
(** * Further properties of CarlaServer.cpp *)
(* ========================================================================= *)

Ltac run_call :=
  unfold bind, ret, UE_LOG, get_TimeOut, get_WorldPort, on_Server, check,
    ifdef_CARLA_SERVER_EXTRA_LOG, extra_log, after;
  simpl.

Section MoreProperties.
Context {F : Float32} {UE : UnrealEngine} {CP : CarlaPlugin}
  {L : CarlaServerLib}.

(** ** Error codes and time-outs *)

(** X1. [ParseErrorCode] answers [Success] for the success code and for no
    other, [TryAgain] for the try-again code when that is not the success
    code, and [Error] for every other code. *)
Theorem ParseErrorCode_classifies (Code : Z) :
  (ParseErrorCode Code = Success <-> Code = CARLA_SERVER_SUCCESS) /\
  (ParseErrorCode Code = TryAgain <->
     Code <> CARLA_SERVER_SUCCESS /\ Code = CARLA_SERVER_TRY_AGAIN) /\
  (ParseErrorCode Code = Error <->
     Code <> CARLA_SERVER_SUCCESS /\ Code <> CARLA_SERVER_TRY_AGAIN).
Proof.
  unfold ParseErrorCode.
  destruct (Z.eqb_spec Code CARLA_SERVER_SUCCESS) as [Hs|Hs];
    destruct (Z.eqb_spec Code CARLA_SERVER_TRY_AGAIN) as [Ht|Ht];
    repeat split; intros; try done; try (by destruct H); tauto.
Qed.

End MoreProperties.

(** X2. For a time-out that is a [uint32], [GetTimeOut] returns a value in
    the range of [int32] whose 32 bits are those of the time-out for a
    blocking call and zero for a non-blocking one; the non-blocking wait is
    0, and the blocking wait is the time-out itself exactly when the
    time-out is below 2^31. *)
Theorem GetTimeOut_fits (TimeOut : Z) (bBlocking : bool) :
  is_uint32 TimeOut ->
  - 2 ^ 31 <= GetTimeOut TimeOut bBlocking < 2 ^ 31 /\
  to_uint32 (GetTimeOut TimeOut bBlocking) =
    (if bBlocking then TimeOut else 0) /\
  GetTimeOut TimeOut false = 0 /\
  (GetTimeOut TimeOut true = TimeOut <-> TimeOut < 2 ^ 31).
Proof.
  intros HT. split; [|split; [|split]].
  - unfold GetTimeOut, to_int32.
    pose proof (Z.mod_pos_bound ((if bBlocking then TimeOut else 0) + 2 ^ 31)
                  (2 ^ 32)). lia.
  - by apply GetTimeOut_bits.
  - reflexivity.
  - unfold is_uint32, uint32_max in HT.
    destruct (Z_lt_ge_dec TimeOut (2 ^ 31)) as [Hsmall|Hlarge].
    + split; [done|]. intros _. apply GetTimeOut_blocking_small. lia.
    + destruct (GetTimeOut_blocking_large TimeOut) as [Heq _]; [lia|].
      rewrite Heq. split; intros; lia.
Qed.

Section Calls.
Context {F : Float32} {UE : UnrealEngine} {CP : CarlaPlugin}
  {L : CarlaServerLib}.

Lemma extends_after (w : World) (S' : CarlaServerPtr) (lines : list LogLine) :
  extends w (after w S' lines).
Proof. unfold extends, after. simpl. eauto. Qed.

(** [SendEpisodeReady] returns in a world that extends the one it ran in. *)
Lemma SendEpisodeReady_extends (bBlocking : bool) (w : World) :
  exists ec w', SendEpisodeReady bBlocking w = Returned ec w' /\ extends w w'.
Proof.
  unfold SendEpisodeReady. run_call.
  destruct (carla_write_episode_ready _ _ _) as [S' code]. simpl.
  eexists _, _. split; [reflexivity|]. unfold extends. simpl. eauto.
Qed.

(** The two ways [ReadControl] can end. *)
Lemma ReadControl_ends (Player : ACarlaVehicleController.t)
  (bBlocking : bool) (w : World) :
  let reply :=
    carla_read_control (CarlaServer.Server (this w))
      (GetTimeOut (CarlaServer.TimeOut (this w)) bBlocking) in
  (ReadControl Player bBlocking w = CheckFailed "Player.IsPossessingAVehicle()"
   /\ ParseErrorCode reply.2.2 = Success
   /\ carla_control.autopilot reply.2.1 = false
   /\ ACarlaVehicleController.PossessedVehicle Player = None)
  \/
  (exists Player' lines,
     ReadControl Player bBlocking w =
       Returned (ParseErrorCode reply.2.2, Player') (after w reply.1 lines)
     /\ (ParseErrorCode reply.2.2 = Success ->
         carla_control.autopilot reply.2.1 = false ->
         ACarlaVehicleController.PossessedVehicle Player <> None)).
Proof.
  unfold ReadControl. run_call.
  destruct (carla_read_control _ _) as [S' [values code]]. simpl.
  destruct (ParseErrorCode code) eqn:Hec; simpl.
  - destruct (carla_control.autopilot values) eqn:Hauto; simpl.
    + right. destruct CARLA_SERVER_EXTRA_LOG; simpl.
      * eexists _, _. split; [reflexivity|done].
      * eexists _, []. split; [by rewrite app_nil_r|done].
    + unfold ACarlaVehicleController.IsPossessingAVehicle,
        ACarlaVehicleController.GetPossessedVehicle. simpl.
      destruct (ACarlaVehicleController.PossessedVehicle Player)
        as [Vehicle|]; simpl; [|by left].
      right. destruct CARLA_SERVER_EXTRA_LOG; simpl.
      * eexists _, _. split; [reflexivity|done].
      * eexists _, []. split; [by rewrite app_nil_r|done].
  - right. destruct bBlocking; simpl.
    + eexists _, []. split; [by rewrite app_nil_r|done].
    + eexists _, _. split; [reflexivity|done].
  - right. destruct bBlocking; simpl;
      (eexists _, []; split; [by rewrite app_nil_r|done]).
Qed.

(** X3. Whatever the transport answers, [Connect], [ReadNewEpisode],
    [SendSceneDescription], [ReadEpisodeStart], [SendEpisodeReady] and
    [SendMeasurements] return: none of them stops on a [check]. The world
    they leave has the port and the time-out the server was built with and
    a log that starts with the old log. [ReadControl] either stops on its
    [check] or returns in such a world. *)
Theorem members_extend_world (w : World) (bBlocking : bool) :
  (exists ec w', Connect w = Returned ec w' /\ extends w w') /\
  (forall Settings, exists r w',
     ReadNewEpisode Settings bBlocking w = Returned r w' /\ extends w w') /\
  (forall AvailableStartSpots, exists ec w',
     SendSceneDescription AvailableStartSpots bBlocking w = Returned ec w' /\
     extends w w') /\
  (forall StartPositionIndex, exists r w',
     ReadEpisodeStart StartPositionIndex bBlocking w = Returned r w' /\
     extends w w') /\
  (exists ec w', SendEpisodeReady bBlocking w = Returned ec w' /\
     extends w w') /\
  (forall GameState PlayerState bSendNonPlayerAgentsInfo, exists ec w',
     SendMeasurements GameState PlayerState bSendNonPlayerAgentsInfo w =
       Returned ec w' /\ extends w w') /\
  (forall Player,
     ReadControl Player bBlocking w =
       CheckFailed "Player.IsPossessingAVehicle()" \/
     exists r w',
       ReadControl Player bBlocking w = Returned r w' /\ extends w w').
Proof.
  repeat split.
  - rewrite Connect_run. eexists _, _. split; [reflexivity|].
    apply extends_after.
  - intros Settings. rewrite ReadNewEpisode_run.
    destruct (ParseErrorCode _); eexists _, _;
      (split; [reflexivity|apply extends_after]).
  - intros Spots. rewrite SendSceneDescription_run.
    eexists _, _. split; [reflexivity|]. apply extends_after.
  - intros Index. rewrite ReadEpisodeStart_run.
    destruct (ParseErrorCode _); eexists _, _;
      (split; [reflexivity|apply extends_after]).
  - apply SendEpisodeReady_extends.
  - intros GameState PlayerState bSend. rewrite SendMeasurements_run.
    eexists _, _. split; [reflexivity|]. apply extends_after.
  - intros Player.
    pose proof (ReadControl_ends Player bBlocking w) as Hends.
    cbv zeta in Hends.
    destruct Hends as [(Hstop & _)|(Player' & lines & Hrun & _)].
    + by left.
    + right. eexists _, _. split; [exact Hrun|]. apply extends_after.
Qed.

(** X4. [ReadControl] stops on its [check] exactly when the read succeeds
    with a manual command while the controller possesses no vehicle; so a
    controller that possesses a vehicle never stops it, nor does a command
    with the autopilot on, nor a read that fails. *)
Theorem ReadControl_stops_iff (Player : ACarlaVehicleController.t)
  (bBlocking : bool) (w : World) :
  let reply :=
    carla_read_control (CarlaServer.Server (this w))
      (GetTimeOut (CarlaServer.TimeOut (this w)) bBlocking) in
  (exists expr, ReadControl Player bBlocking w = CheckFailed expr) <->
  (ParseErrorCode reply.2.2 = Success /\
   carla_control.autopilot reply.2.1 = false /\
   ACarlaVehicleController.PossessedVehicle Player = None).
Proof.
  intros reply. subst reply.
  pose proof (ReadControl_ends Player bBlocking w) as Hends.
  cbv zeta in Hends.
  destruct Hends
    as [(Hstop & Hec & Hauto & Hnone)|(Player' & lines & Hrun & Hsome)].
  - split; [done|]. intros _. by eexists.
  - rewrite Hrun. split.
    + intros [expr Hbad]. discriminate.
    + intros (Hec & Hauto & Hnone). by destruct (Hsome Hec Hauto).
Qed.

(** X5. A [ReadControl] whose read does not succeed, and is not a
    non-blocking try-again, changes nothing but the transport: it returns
    the error code with the controller as it was and logs no line. This is
    the case of every [Error] and of a [TryAgain] at a blocking call. *)
Theorem ReadControl_quiet_failure (Player : ACarlaVehicleController.t)
  (bBlocking : bool) (w : World) :
  let reply :=
    carla_read_control (CarlaServer.Server (this w))
      (GetTimeOut (CarlaServer.TimeOut (this w)) bBlocking) in
  ParseErrorCode reply.2.2 <> Success ->
  bBlocking = true \/ ParseErrorCode reply.2.2 = Error ->
  ReadControl Player bBlocking w =
    Returned (ParseErrorCode reply.2.2, Player)
      (mkWorld
         (CarlaServer.mk (CarlaServer.WorldPort (this w))
            (CarlaServer.TimeOut (this w)) reply.1)
         (LogCarlaServer w)).
Proof.
  unfold ReadControl. run_call.
  destruct (carla_read_control _ _) as [S' [values code]]. simpl.
  intros Hfail Hquiet.
  destruct (ParseErrorCode code) eqn:Hec; [done| |]; simpl.
  - destruct Hquiet as [->|?]; [done|done].
  - by destruct bBlocking.
Qed.

(** X6. A read that succeeds overwrites its out-parameter with what the
    client sent, whatever was there: [ReadEpisodeStart] returns the index
    received and [ReadNewEpisode] the settings loaded from the text
    received, and each logs that it did. *)
Theorem reads_store_on_success (bBlocking : bool) (w : World)
  (Settings : UCarlaSettings) (StartPositionIndex : Z) :
  let request :=
    carla_read_request_new_episode (CarlaServer.Server (this w))
      (GetTimeOut (CarlaServer.TimeOut (this w)) bBlocking) in
  let start :=
    carla_read_episode_start (CarlaServer.Server (this w))
      (GetTimeOut (CarlaServer.TimeOut (this w)) bBlocking) in
  (ParseErrorCode request.2.2 = Success ->
   exists w',
     ReadNewEpisode Settings bBlocking w =
       Returned
         (Success,
          LoadSettingsFromString Settings
            (FString
               (carla_request_new_episode.ini_file_length request.2.1)
               (carla_request_new_episode.ini_file request.2.1))) w' /\
     exists lines,
       LogCarlaServer w' =
       LogCarlaServer w ++ mkLogLine Log "Received new episode" [] :: lines)
  /\
  (ParseErrorCode start.2.2 = Success ->
   ReadEpisodeStart StartPositionIndex bBlocking w =
     Returned
       (Success, carla_episode_start.player_start_spot_index start.2.1)
       (after w start.1
          [mkLogLine Log "Episode start received: { StartIndex = %d }"
             [ArgInt
                (carla_episode_start.player_start_spot_index start.2.1)]])).
Proof.
  intros request start. split; intros Hec.
  - rewrite ReadNewEpisode_run. fold request. rewrite Hec.
    eexists. split; [reflexivity|]. unfold after. simpl. eauto.
  - rewrite ReadEpisodeStart_run. fold start. by rewrite Hec.
Qed.

(** X7. [SendSceneDescription] hands the transport an array with one wire
    transform per start spot, slot [i] holding the location and the forward
    vector of spot [i], and the number of spots; the array pointer is not
    null even when there is no start spot. *)
Theorem SendSceneDescription_array (AvailableStartSpots : list APlayerStart.t)
  (bBlocking : bool) (w : World) :
  exists StartSpots : list carla_transform.t,
    let scene :=
      carla_scene_description.mk (Some StartSpots)
        (Z.of_nat (length AvailableStartSpots)) in
    let reply :=
      carla_write_scene_description (CarlaServer.Server (this w)) scene
        (GetTimeOut (CarlaServer.TimeOut (this w)) bBlocking) in
    SendSceneDescription AvailableStartSpots bBlocking w =
      Returned (ParseErrorCode reply.2)
        (after w reply.1
           [mkLogLine Log "Sending %d available start positions"
              [ArgInt (Z.of_nat (length AvailableStartSpots))]]) /\
    length StartSpots = length AvailableStartSpots /\
    forall (i : nat) (Spot : APlayerStart.t),
      AvailableStartSpots !! i = Some Spot ->
      exists T : carla_transform.t,
        StartSpots !! i = Some T /\
        carla_transform.location T =
          carla_vector3d.mk
            (FVector.X (FTransform.Translation (APlayerStart.ActorTransform Spot)))
            (FVector.Y (FTransform.Translation (APlayerStart.ActorTransform Spot)))
            (FVector.Z (FTransform.Translation (APlayerStart.ActorTransform Spot)))
        /\
        carla_transform.orientation T =
          Set_vector3d carla_vector3d_zero
            (GetForwardVector
               (FTransform.Rotation (APlayerStart.ActorTransform Spot))).
Proof.
  eexists. split; [apply SendSceneDescription_run|]. split.
  - by rewrite length_map.
  - intros i Spot Hi. eexists. split.
    + rewrite list_lookup_fmap, Hi. reflexivity.
    + done.
Qed.

End Calls.

Section Snapshots.
Context {F : Float32} {UE : UnrealEngine} {CP : CarlaPlugin}
  {L : CarlaServerLib}.

(** ** Transforms *)

(** X8. Two transforms have the same wire transform exactly when they have
    the same location and the same forward vector: the wire transform tells
    the location and the forward vector of the transform it was made from,
    and does not depend on what the destination held before. *)
Theorem Set_transform_equal_iff (lhs1 lhs2 : carla_transform.t)
  (T1 T2 : FTransform.t) :
  Set_transform lhs1 T1 = Set_transform lhs2 T2 <->
  FTransform.GetLocation T1 = FTransform.GetLocation T2 /\
  GetForwardVector (FTransform.GetRotation T1) =
    GetForwardVector (FTransform.GetRotation T2).
Proof.
  unfold Set_transform, Set_vector3d. split.
  - intros Heq. injection Heq as Hfx Hfy Hfz Hlx Hly Hlz.
    destruct (FTransform.GetLocation T1), (FTransform.GetLocation T2),
      (GetForwardVector (FTransform.GetRotation T1)),
      (GetForwardVector (FTransform.GetRotation T2)).
    simpl in *. by subst.
  - by intros [-> ->].
Qed.

(** ** Agents *)

Lemma present_app {T : Type} (Actors1 Actors2 : list (option T)) :
  present (Actors1 ++ Actors2) = present Actors1 ++ present Actors2.
Proof. unfold present. apply omap_app. Qed.

Lemma present_length {T : Type} (Actors : list (option T)) :
  (length (present Actors) <= length Actors)%nat.
Proof.
  unfold present. induction Actors as [|[Actor|] Actors IH]; cbn in *; lia.
Qed.

(** X9. [AddAgents] keeps the agents already in the array, in place, and
    appends one agent per non-null actor, in the order of the actors; null
    pointers add nothing, so the array grows by at most the number of
    actors. Adding the actors of two arrays one after the other is adding
    the actors of their concatenation. *)
Theorem AddAgents_appends {T : Type} {AT : Actor T}
  (Agents : list carla_agent.t) (Actors1 Actors2 : list (option T))
  (type : Z) :
  AddAgents Agents Actors1 type =
    Agents ++ map (fun Actor => agent_of Actor type) (present Actors1) /\
  (length Agents <= length (AddAgents Agents Actors1 type)
     <= length Agents + length Actors1)%nat /\
  AddAgents Agents (replicate (length Actors1) None) type = Agents /\
  AddAgents (AddAgents Agents Actors1 type) Actors2 type =
    AddAgents Agents (Actors1 ++ Actors2) type.
Proof.
  rewrite !AddAgents_app. split; [done|]. split; [|split].
  - rewrite length_app, length_map.
    pose proof (present_length Actors1). lia.
  - assert (Hnone : present (replicate (length Actors1) (@None T)) = []).
    { unfold present. induction Actors1 as [|Actor Actors1 IH]; [done|].
      exact IH. }
    rewrite Hnone. simpl. by rewrite app_nil_r.
  - by rewrite present_app, map_app, app_assoc.
Qed.

Lemma agents_sent_described (GameState : ACarlaGameState.t)
  (PlayerState : ACarlaPlayerState.t) :
  agents_sent (Measurements GameState PlayerState true) =
  described_agent_list GameState.
Proof.
  unfold agents_sent, Measurements. simpl.
  rewrite GetAgentInfo_described. simpl.
  unfold Num. by destruct (described_agent_list GameState).
Qed.

(** X10. In every snapshot the number of agents is the length of the agent
    array, and the pointer to the array is null exactly when that number is
    0; an array that is sent is never empty. With agent reporting off the
    pointer is null and the number 0, whatever the game state holds. *)
Theorem snapshot_agents_well_formed (GameState : ACarlaGameState.t)
  (PlayerState : ACarlaPlayerState.t) (bSendNonPlayerAgentsInfo : bool) :
  let values := Measurements GameState PlayerState bSendNonPlayerAgentsInfo in
  let off := Measurements GameState PlayerState false in
  carla_measurements.number_of_non_player_agents values =
    Z.of_nat (length (agents_sent values)) /\
  (carla_measurements.non_player_agents values = None <->
   carla_measurements.number_of_non_player_agents values = 0) /\
  carla_measurements.non_player_agents values <> Some [] /\
  carla_measurements.non_player_agents off = None /\
  carla_measurements.number_of_non_player_agents off = 0.
Proof.
  unfold Measurements, agents_sent, array_at, Num. simpl.
  destruct bSendNonPlayerAgentsInfo; simpl; [|done].
  destruct (GetAgentInfo GameState []) as [|agent Agents] eqn:Hinfo.
  - done.
  - replace (0 <? Z.of_nat (length (agent :: Agents))) with true
      by (symmetry; apply Z.ltb_lt; simpl; lia).
    simpl. repeat split; done.
Qed.

(** X11. The snapshot depends on the game state only through the non-null
    actors of the three arrays, in order: null entries and the counters of
    the spawners (they only size the reservation) leave no trace in it. *)
Theorem snapshot_from_actors_only (GameState1 GameState2 : ACarlaGameState.t)
  (PlayerState : ACarlaPlayerState.t) (bSendNonPlayerAgentsInfo : bool) :
  whitelist_walkers GameState1 = whitelist_walkers GameState2 ->
  blacklist_walkers GameState1 = blacklist_walkers GameState2 ->
  spawned_vehicles GameState1 = spawned_vehicles GameState2 ->
  Measurements GameState1 PlayerState bSendNonPlayerAgentsInfo =
  Measurements GameState2 PlayerState bSendNonPlayerAgentsInfo.
Proof.
  intros Hwhite Hblack Hvehicles. unfold Measurements.
  destruct bSendNonPlayerAgentsInfo; [|done].
  rewrite !GetAgentInfo_described. unfold described_agent_list.
  by rewrite Hwhite, Hblack, Hvehicles.
Qed.

(** X12. With agent reporting on, the identifiers sent are the pointer
    hashes of the actors and the transforms sent are the wire transforms of
    the actor transforms, walkers of the white list first, then walkers of
    the black list, then vehicles. An actor on two arrays is sent once per
    array: nothing removes duplicates. *)
Theorem agents_sent_ids_and_transforms (GameState : ACarlaGameState.t)
  (PlayerState : ACarlaPlayerState.t) :
  let Agents := agents_sent (Measurements GameState PlayerState true) in
  map carla_agent.id Agents =
    map (fun W => PointerHash (ACharacter.Addr W))
      (whitelist_walkers GameState ++ blacklist_walkers GameState)
    ++ map (fun V => PointerHash (ACarlaWheeledVehicle.Addr V))
         (spawned_vehicles GameState) /\
  map carla_agent.transform Agents =
    map (fun W =>
           Set_transform carla_transform_zero (ACharacter.ActorTransform W))
      (whitelist_walkers GameState ++ blacklist_walkers GameState)
    ++ map (fun V =>
              Set_transform carla_transform_zero
                (ACarlaWheeledVehicle.ActorTransform V))
         (spawned_vehicles GameState).
Proof.
  simpl. rewrite agents_sent_described. unfold described_agent_list.
  rewrite app_assoc, <- map_app, !map_app, !map_map. done.
Qed.

End Snapshots.

Section SnapshotImages.
Context {F : Float32} {UE : UnrealEngine} {CP : CarlaPlugin}
  {L : CarlaServerLib}.

Lemma image_pointer_cases (Images : list FCapturedImage.t) :
  (if 0 <? Z.of_nat (length Images)
   then Some (map wire_image Images) else None) =
  match Images with
  | [] => None
  | _ :: _ => Some (map wire_image Images)
  end.
Proof.
  destruct Images as [|uImage Images]; [done|].
  replace (0 <? Z.of_nat (length (uImage :: Images))) with true; [done|].
  symmetry. apply Z.ltb_lt. simpl. lia.
Qed.

Lemma image_log_length (Images : list FCapturedImage.t) :
  length (concat (map image_log Images)) =
  if CARLA_SERVER_EXTRA_LOG then length Images else 0%nat.
Proof.
  induction Images as [|uImage Images IH]; simpl.
  - by destruct CARLA_SERVER_EXTRA_LOG.
  - rewrite length_app, IH. unfold image_log, extra_log.
    destruct (FCapturedImage.BitMap uImage);
      by destruct CARLA_SERVER_EXTRA_LOG.
Qed.

(** X13. [SendMeasurements] makes one write. The image pointer it hands
    over is null when the player has no captured image; otherwise it points
    to an array with one wire image per captured image, slot [i] for image
    [i]: zeroed when the bitmap of image [i] is empty, and with the size,
    the effect type and the pixels of image [i] when it is not. A frame
    without pixels keeps its slot and does not shift the frames after it. *)
Theorem SendMeasurements_images (GameState : ACarlaGameState.t)
  (PlayerState : ACarlaPlayerState.t) (bSendNonPlayerAgentsInfo : bool)
  (w : World) :
  let Images := ACarlaPlayerState.Images PlayerState in
  let values := Measurements GameState PlayerState bSendNonPlayerAgentsInfo in
  exists sent : list carla_image.t,
    let images := match Images with [] => None | _ :: _ => Some sent end in
    let reply :=
      carla_write_measurements (CarlaServer.Server (this w)) values images
        (Z.of_nat (length Images)) in
    (exists lines,
       SendMeasurements GameState PlayerState bSendNonPlayerAgentsInfo w =
         Returned (ParseErrorCode reply.2) (after w reply.1 lines)) /\
    length sent = length Images /\
    forall (i : nat) (uImage : FCapturedImage.t),
      Images !! i = Some uImage ->
      sent !! i =
      Some
        (match FCapturedImage.BitMap uImage with
         | [] => carla_image.mk 0 0 0 None
         | pixel :: pixels =>
             carla_image.mk
               (FCapturedImage.SizeX uImage)
               (FCapturedImage.SizeY uImage)
               (ToUInt (FCapturedImage.PostProcessEffect uImage))
               (Some (DWColor pixel :: map DWColor pixels))
         end).
Proof.
  intros Images values.
  exists (map wire_image Images). split; [|split].
  - eexists. rewrite SendMeasurements_run. fold values.
    unfold ACarlaPlayerState.GetNumberOfImages. fold Images.
    rewrite image_pointer_cases. reflexivity.
  - by rewrite length_map.
  - intros i uImage Hi. rewrite list_lookup_fmap, Hi. simpl.
    unfold wire_image. by destruct (FCapturedImage.BitMap uImage) eqn:Hbitmap.
Qed.

(** X14. In a build with [CARLA_SERVER_EXTRA_LOG] a call of
    [SendMeasurements] logs one line for the agents and one line per
    captured image; in a build without it the call logs nothing. *)
Theorem SendMeasurements_log_lines (GameState : ACarlaGameState.t)
  (PlayerState : ACarlaPlayerState.t) (bSendNonPlayerAgentsInfo : bool)
  (w : World) :
  exists ec w' lines,
    SendMeasurements GameState PlayerState bSendNonPlayerAgentsInfo w =
      Returned ec w' /\
    LogCarlaServer w' = LogCarlaServer w ++ lines /\
    length lines =
      (if CARLA_SERVER_EXTRA_LOG
       then S (length (ACarlaPlayerState.Images PlayerState)) else 0%nat) /\
    (CARLA_SERVER_EXTRA_LOG = false -> LogCarlaServer w' = LogCarlaServer w).
Proof.
  rewrite SendMeasurements_run.
  match goal with |- context [after _ _ ?l] => remember l as lines eqn:Hlines end.
  assert (Hlen : length lines =
    if CARLA_SERVER_EXTRA_LOG
    then S (length (ACarlaPlayerState.Images PlayerState)) else 0%nat).
  { subst lines. rewrite length_app, image_log_length. unfold extra_log.
    by destruct CARLA_SERVER_EXTRA_LOG. }
  eexists _, _, lines.
  split; [reflexivity|]. split; [reflexivity|]. split; [exact Hlen|].
  intros Hquiet. rewrite Hquiet in Hlen. apply nil_length_inv in Hlen.
  rewrite Hlen. unfold after. simpl. by rewrite app_nil_r.
Qed.

End SnapshotImages.

(* ========================================================================= *)
(** * Further runs on the reference implementation *)
(* ========================================================================= *)

Section MoreRuns.
Import Reference.
Local Existing Instance ExactFloat.
Local Existing Instance GridEngine.
Local Existing Instance QuietPlugin.
Local Existing Instance ScriptedClient.

(** X2, run: a time-out of ten seconds at a blocking call. *)
Lemma GetTimeOut_fits_witness :
  is_uint32 10000 /\
  to_uint32 (GetTimeOut 10000 true) = 10000 /\
  (GetTimeOut 10000 true = 10000 <-> 10000 < 2 ^ 31).
Proof.
  assert (H : is_uint32 10000) by (unfold is_uint32, uint32_max; lia).
  split; [exact H|].
  destruct (GetTimeOut_fits 10000 true H) as (_ & Hbits & _ & Hsmall).
  split; [exact Hbits | exact Hsmall].
Defined.

(** X5, run: the client is silent at a blocking [ReadControl]: the controller
    is untouched and nothing is logged. *)
Lemma ReadControl_quiet_failure_witness :
  exists w',
    ReadControl driver true (world_with 10000 [1]) =
      Returned (TryAgain, driver) w' /\
    LogCarlaServer w' = [].
Proof.
  eexists. split.
  - exact (ReadControl_quiet_failure driver true (world_with 10000 [1])
             ltac:(discriminate) (or_introl eq_refl)).
  - reflexivity.
Defined.

(** X6, run: the client selects start spot 1 while the caller held 7. *)
Lemma reads_store_on_success_witness :
  exists w',
    ReadEpisodeStart 7 true (world_with 10000 [0]) = Returned (Success, 1) w'.
Proof.
  eexists.
  exact (proj2 (reads_store_on_success (CP := QuietPlugin) true
                  (world_with 10000 [0]) "Town01" 7) eq_refl).
Defined.

(** X11, run: [town] and [town_padded] differ in their null entries and
    counters and give one snapshot. *)
Lemma snapshot_from_actors_only_witness :
  town <> town_padded /\
  Measurements town (player_with []) true =
    Measurements town_padded (player_with []) true.
Proof.
  split; [discriminate|].
  exact (snapshot_from_actors_only town town_padded (player_with []) true
           eq_refl eq_refl eq_refl).
Defined.

(** X14, run: two frames sent from a build without the switch leave the log
    empty. *)
Lemma SendMeasurements_log_lines_witness :
  exists ec w',
    SendMeasurements town (player_with [missing_frame; tiny_frame]) true
      (world_with 10000 [0]) = Returned ec w' /\
    LogCarlaServer w' = [].
Proof.
  destruct (SendMeasurements_log_lines town
              (player_with [missing_frame; tiny_frame]) true
              (world_with 10000 [0]))
    as (ec & w' & lines & Hrun & _ & _ & Hquiet).
  exists ec, w'. split; [exact Hrun|]. exact (Hquiet eq_refl).
Defined.

End MoreRuns.
